(** * HeatAQ: pool schedule resolution and predictive heating control

    A shallow embedding of

      - [reference/python/pool_scheduler_db.py]  (class [PoolSchedulerDB]) and
      - [docs/pool_v3_6_0_3_simulator.py]        (class [PoolEnergySystemV56])

    together with the properties of the schedule resolver, the thermal
    model, the control planner and the simulation loop.

    Numbers.  Python floats are idealised as exact rationals ([Q]); every
    comparison, [min], [max] and [abs] of the source is kept as written.
    A division whose divisor is zero makes the computation fail with
    [ZeroDivisionError]; all other arithmetic is total.  The two
    transcendental operations of the evaporation formula ([np.exp] and
    [x ** 0.695]) have no rational counterpart and are parameters of the
    thermal model.

    Failure.  A Python exception aborts the run; it is modelled by the
    [Raise] constructor of [result]. *)

From Stdlib Require Import ZArith QArith Qround Qabs Lia Lqa List Bool String.
From Stdlib Require Import Sorted Permutation.
From stdpp Require Import base option gmap strings pretty.
Import ListNotations.

Local Open Scope Z_scope.

(** ** Python exceptions and the error monad *)

Inductive exn : Type :=
| ZeroDivisionError
| ValueError
| IndexError
| OverflowError.

Inductive result (A : Type) : Type :=
| Ok (a : A)
| Raise (e : exn).

Arguments Ok {A} a.
Arguments Raise {A} e.

Definition rbind {A B : Type} (m : result A) (k : A -> result B) : result B :=
  match m with
  | Ok a => k a
  | Raise e => Raise e
  end.

#[global] Instance result_ret : MRet result := fun A a => Ok a.
#[global] Instance result_bind : MBind result := fun A B k m => rbind m k.

(** ** Python numeric built-ins over the rationals *)

Module Py.

Definition ltb (a b : Q) : bool := negb (Qle_bool b a).
Definition leb (a b : Q) : bool := Qle_bool a b.
Definition eqb (a b : Q) : bool := Qeq_bool a b.
Definition geb (a b : Q) : bool := leb b a.
Definition gtb (a b : Q) : bool := ltb b a.

(** [min(a, b)] returns [b] only when [b < a]; [max(a, b)] returns [b]
    only when [b > a]. *)
Definition min (a b : Q) : Q := if ltb b a then b else a.
Definition max (a b : Q) : Q := if ltb a b then b else a.

Definition abs (a : Q) : Q := if ltb a 0 then (- a)%Q else a.

(** [a / b] *)
Definition div (a b : Q) : result Q :=
  if eqb b 0 then Raise ZeroDivisionError else Ok (a / b)%Q.

(** [int(x)] truncates towards zero; [np.floor] rounds down. *)
Definition int (x : Q) : Z := if ltb x 0 then Qceiling x else Qfloor x.
Definition floor (x : Q) : Z := Qfloor x.

(** [range(n)] *)
Definition range (n : Z) : list Z := List.map Z.of_nat (List.seq 0 (Z.to_nat n)).

(** [sum(l)] *)
Definition sum (l : list Q) : Q := List.fold_left Qplus l 0%Q.

(** [len(l)] as a number *)
Definition len {A : Type} (l : list A) : Z := Z.of_nat (List.length l).

End Py.

(** ** Calendar dates ([datetime.date]) *)

Module Calendar.

Record Date : Type := mkDate { year : Z; month : Z; day : Z }.

Definition date_eqb (a b : Date) : bool :=
  (year a =? year b) && (month a =? month b) && (day a =? day b).

Definition is_leap (y : Z) : bool :=
  (y mod 4 =? 0) && (negb (y mod 100 =? 0) || (y mod 400 =? 0)).

Definition days_in_month (y m : Z) : Z :=
  if m =? 2 then (if is_leap y then 29 else 28)
  else if (m =? 4) || (m =? 6) || (m =? 9) || (m =? 11) then 30
  else 31.

(** Days of the year that precede the first day of month [m]. *)
Definition days_before_month (y m : Z) : Z :=
  List.fold_left (fun acc k => acc + days_in_month y k)
                 (List.map (fun k => k + 1) (Py.range (m - 1))) 0.

Definition days_before_year (y : Z) : Z :=
  let p := y - 1 in p * 365 + p / 4 - p / 100 + p / 400.

(** [date.toordinal()]: 1 January of year 1 is day 1. *)
Definition to_ordinal (d : Date) : Z :=
  days_before_year (year d) + days_before_month (year d) (month d) + day d.

(** [date.fromordinal(n)] *)
Definition from_ordinal (n : Z) : Date :=
  let n0 := n - 1 in
  let n400 := n0 / 146097 in
  let n1 := n0 mod 146097 in
  let n100 := n1 / 36524 in
  let n2 := n1 mod 36524 in
  let n4 := n2 / 1461 in
  let n3 := n2 mod 1461 in
  let n1y := n3 / 365 in
  let r := n3 mod 365 in
  let y := n400 * 400 + 1 + n100 * 100 + n4 * 4 + n1y in
  if (n1y =? 4) || (n100 =? 4) then mkDate (y - 1) 12 31
  else
    let leapyear := (n1y =? 3) && (negb (n4 =? 24) || (n100 =? 3)) in
    let m := Z.shiftr (r + 50) 5 in
    let preceding :=
      days_before_month 1 m + (if (2 <? m) && leapyear then 1 else 0) in
    if r <? preceding then
      let m' := m - 1 in
      let preceding' :=
        preceding - (days_in_month 1 m'
                     + (if (m' =? 2) && leapyear then 1 else 0)) in
      mkDate y m' (r - preceding' + 1)
    else mkDate y m (r - preceding + 1).

(** [d + timedelta(days=n)] *)
Definition add_days (d : Date) (n : Z) : Date := from_ordinal (to_ordinal d + n).

(** [date.weekday()]: Monday is 0, Sunday is 6. *)
Definition weekday (d : Date) : Z := (to_ordinal d + 6) mod 7.

End Calendar.

(** ** Data shared by the scheduler and the simulator *)

(** A period dictionary [{"from": h, "to": h, "target_temp": t, ...}]. *)
Record Period : Type := mkPeriod {
  p_from : Z;
  p_to : Z;
  p_target_temp : Q;
  p_min_temp : option Q;
  p_max_temp : option Q
}.

Inductive TransitionType : Type := TOpen | TClose.

(** A transition dictionary [{"time": h, "type": ..., "target_temp": ...,
    "from_temp": ...}]. *)
Record Transition : Type := mkTransition {
  t_time : Z;
  t_type : TransitionType;
  t_target_temp : option Q;
  t_from_temp : option Q
}.

Definition is_open_type (t : TransitionType) : bool :=
  match t with TOpen => true | TClose => false end.

(** [list.sort(key=...)] is stable: insertion from the right keeps equal
    keys in their original order. *)
Fixpoint insert_by_key {A : Type} (key : A -> Z) (x : A) (l : list A) : list A :=
  match l with
  | [] => [x]
  | y :: l' => if key x <=? key y then x :: y :: l' else y :: insert_by_key key x l'
  end.

Definition sort_by_key {A : Type} (key : A -> Z) (l : list A) : list A :=
  List.fold_right (insert_by_key key) [] l.

(** Truth value of an optional integer and of an optional string
    ([None], [0] and the empty string are false). *)
Definition truthy_int (o : option Z) : bool :=
  match o with Some z => negb (z =? 0) | None => false end.

Definition truthy_str (o : option string) : bool :=
  match o with Some s => negb (String.eqb s EmptyString) | None => false end.

(** Comparison of [(month, day)] tuples: the first differing component
    decides. *)
Definition tuple_le (a b : Z * Z) : bool :=
  if negb (fst a =? fst b) then fst a <? fst b else snd a <=? snd b.

Definition tuple_ge (a b : Z * Z) : bool := tuple_le b a.

(** ** [pool_scheduler_db.py]: class [PoolSchedulerDB] *)

Module PoolSchedulerDB.
Import Calendar.

Record DaySchedule : Type := mkDaySchedule {
  ds_id : Z;
  ds_description : string;
  ds_periods : list Period
}.

Record WeekSchedule : Type := mkWeekSchedule {
  ws_name : string;
  ws_days : gmap string (option string)
}.

Record DateRange : Type := mkDateRange {
  dr_id : Z;
  dr_name : string;
  dr_priority : Z;
  week_schedule_id : Z;
  start_month : Z;
  start_day : Z;
  end_month : Z;
  end_day : Z;
  is_recurring : bool
}.

Record ExceptionDay : Type := mkExceptionDay {
  exc_id : Z;
  exc_name : string;
  day_schedule_id : option Z;
  day_schedule_name : option string;
  fixed_month : option Z;
  fixed_day : option Z;
  is_moving : bool;
  easter_offset : option Z;
  exc_priority : Z
}.

Record Template : Type := mkTemplate {
  template_id : Z;
  template_name : string;
  base_week_schedule_id : option Z
}.

(** The attributes of a loaded [PoolSchedulerDB] object.  [schedules]
    keeps the insertion order of the dictionary (its first key is used as
    a last resort). *)
Record t : Type := mkScheduler {
  template : Template;
  schedules : list (string * DaySchedule);
  week_schedules : gmap Z WeekSchedule;
  date_ranges : list DateRange;
  exception_days : list ExceptionDay;
  holiday_dates : gmap Z Date
}.

Definition weekday_short : list string :=
  ["mon"; "tue"; "wed"; "thu"; "fri"; "sat"; "sun"]%string.

Definition _get_easter_date (self : t) (year : Z) : Date :=
  match holiday_dates self !! year with
  | Some d => d
  | None =>
      let a := year mod 19 in
      let b := year / 100 in
      let c := year mod 100 in
      let d := b / 4 in
      let e := b mod 4 in
      let f := (b + 8) / 25 in
      let g := (b - f + 1) / 3 in
      let h := (19 * a + b - d - g + 15) mod 30 in
      let i := c / 4 in
      let k := c mod 4 in
      let l := (32 + 2 * e + 2 * i - h - k) mod 7 in
      let m := (a + 11 * h + 22 * l) / 451 in
      let month := (h + l - 7 * m + 114) / 31 in
      let day := ((h + l - 7 * m + 114) mod 31) + 1 in
      mkDate year month day
  end.

(** One iteration of the loop of [_check_exception_days]. *)
Definition exception_matches (self : t) (date : Date) (exc : ExceptionDay) : bool :=
  match is_moving exc, easter_offset exc with
  | true, Some off =>
      let easter := _get_easter_date self (year date) in
      date_eqb date (add_days easter off)
  | _, _ =>
      if truthy_int (fixed_month exc) && truthy_int (fixed_day exc) then
        match fixed_month exc, fixed_day exc with
        | Some fm, Some fd => (month date =? fm) && (day date =? fd)
        | _, _ => false
        end
      else false
  end.

Definition _check_exception_days (self : t) (date : Date) : option ExceptionDay :=
  List.find (exception_matches self date) (exception_days self).

Definition _date_in_range (date : Date) (date_range : DateRange) : bool :=
  if is_recurring date_range then
    let from_md := (start_month date_range, start_day date_range) in
    let to_md := (end_month date_range, end_day date_range) in
    let current_md := (month date, day date) in
    if tuple_le from_md to_md then
      tuple_le from_md current_md && tuple_le current_md to_md
    else
      tuple_ge current_md from_md || tuple_le current_md to_md
  else false.

(** [week_schedule['days'].get(dow)] for the weekday of [date]. *)
Definition week_lookup (ws : WeekSchedule) (date : Date) : option string :=
  match List.nth_error weekday_short (Z.to_nat (weekday date)) with
  | Some dow => default None (ws_days ws !! dow)
  | None => None
  end.

(** The loop over [self.date_ranges] of [get_schedule_for_date]. *)
Fixpoint check_date_ranges (self : t) (date : Date) (l : list DateRange)
  : option string :=
  match l with
  | [] => None
  | date_range :: rest =>
      if _date_in_range date date_range then
        match week_schedules self !! week_schedule_id date_range with
        | Some week_schedule =>
            let schedule_name := week_lookup week_schedule date in
            if truthy_str schedule_name then schedule_name
            else check_date_ranges self date rest
        | None => check_date_ranges self date rest
        end
      else check_date_ranges self date rest
  end.

(** The result is the schedule name; an exception day whose schedule was
    not joined yields [None], as the dictionary entry does. *)
Definition get_schedule_for_date (self : t) (date : Date)
  : result (option string) :=
  match _check_exception_days self date with
  | Some exception => Ok (day_schedule_name exception)
  | None =>
      match check_date_ranges self date (date_ranges self) with
      | Some schedule_name => Ok (Some schedule_name)
      | None =>
          let base_week_id := base_week_schedule_id (template self) in
          let from_base :=
            if truthy_int base_week_id then
              match base_week_id ≫= (fun i => week_schedules self !! i) with
              | Some week_schedule =>
                  let schedule_name := week_lookup week_schedule date in
                  if truthy_str schedule_name then schedule_name else None
              | None => None
              end
            else None in
          match from_base with
          | Some schedule_name => Ok (Some schedule_name)
          | None =>
              match schedules self with
              | (name, _) :: _ => Ok (Some name)
              | [] => Raise ValueError
              end
          end
      end
  end.

Definition lookup_schedule (self : t) (name : string) : option DaySchedule :=
  option_map snd (List.find (fun kv => String.eqb (fst kv) name) (schedules self)).

Definition get_periods (self : t) (date : Date) : result (list Period) :=
  schedule_name ← get_schedule_for_date self date;
  match schedule_name ≫= lookup_schedule self with
  | Some schedule => Ok (ds_periods schedule)
  | None => Raise ValueError
  end.

(** The containment test shared by [get_current_temperature] and
    [get_current_period]. *)
Definition period_contains (period : Period) (hour : Z) : bool :=
  if p_from period <? p_to period then
    (p_from period <=? hour) && (hour <? p_to period)
  else
    (p_from period <=? hour) || (hour <? p_to period).

Definition get_current_period (self : t) (date : Date) (hour : Z)
  : result (option Period) :=
  periods ← get_periods self date;
  Ok (List.find (fun p => period_contains p hour) periods).

Definition get_current_temperature (self : t) (date : Date) (hour : Z)
  : result (option Q) :=
  periods ← get_periods self date;
  Ok (option_map p_target_temp (List.find (fun p => period_contains p hour) periods)).

Definition is_open (self : t) (date : Date) (hour : Z) : result bool :=
  temp ← get_current_temperature self date hour;
  Ok (match temp with Some _ => true | None => false end).

(** The transitions of a list of periods, before sorting; [last_target]
    is the target of the previous period. *)
Fixpoint transitions_of (periods : list Period) (last_target : option Q)
  : list Transition :=
  match periods with
  | [] => []
  | period :: rest =>
      mkTransition (p_from period) TOpen (Some (p_target_temp period)) last_target
      :: mkTransition (p_to period) TClose None (Some (p_target_temp period))
      :: transitions_of rest (Some (p_target_temp period))
  end.

Definition get_daily_transitions (self : t) (date : Date)
  : result (list Transition) :=
  periods ← get_periods self date;
  Ok (sort_by_key t_time (transitions_of periods None)).

Definition get_period_duration (period : Period) : Z :=
  if p_from period <? p_to period then p_to period - p_from period
  else (24 - p_from period) + p_to period.

(** [datetime.combine(date, datetime.min.time()).replace(hour=h)]: a
    datetime on the hour, given as a date and an hour; [replace] raises
    [ValueError] unless [0 <= h <= 23]. *)
Definition opening_at (date : Date) (trans : Transition)
  : result (option (Date * Z * option Q)) :=
  if (0 <=? t_time trans) && (t_time trans <=? 23)
  then Ok (Some (date, t_time trans, t_target_temp trans))
  else Raise ValueError.

(** The loop [for day_offset in range(1, 31)] of [find_next_opening]. *)
Fixpoint search_next_days (self : t) (current_date : Date) (offsets : list Z)
  : result (option (Date * Z * option Q)) :=
  match offsets with
  | [] => Ok None
  | day_offset :: rest =>
      let next_date := add_days current_date day_offset in
      transitions ← get_daily_transitions self next_date;
      match List.find (fun trans => is_open_type (t_type trans)) transitions with
      | Some trans => opening_at next_date trans
      | None => search_next_days self current_date rest
      end
  end.

(** [find_next_opening]: [(opening date, opening hour, target_temp)], or
    [None] for the pair [(None, None)]. *)
Definition find_next_opening (self : t) (current_date : Date) (current_hour : Z)
  : result (option (Date * Z * option Q)) :=
  transitions ← get_daily_transitions self current_date;
  match List.find (fun trans => is_open_type (t_type trans)
                                && (current_hour <? t_time trans)) transitions with
  | Some trans => opening_at current_date trans
  | None =>
      search_next_days self current_date (List.map (fun k => k + 1) (Py.range 30))
  end.

End PoolSchedulerDB.

(** ** [pool_v3_6_0_3_simulator.py]: class [PoolEnergySystemV56] *)

Module Simulator.
Import Calendar.

Local Open Scope Q_scope.

(** A pandas timestamp of an hourly row: the rows of the weather series
    are on the hour, so a timestamp is a date and an hour. *)
Record Timestamp : Type := mkTimestamp { ts_date : Date; ts_hour : Z }.

(** One row of the weather series.  [humidity] and [ghi] are read with
    [row.get(key, default)]. *)
Record WeatherRow : Type := mkWeatherRow {
  timestamp : Timestamp;
  temperature : Q;
  wind_speed : Q;
  humidity : option Q;
  ghi : option Q
}.

(** The configuration dictionary, one field per key that the engine
    reads (defaults of [dict.get] already applied). *)
Record Config : Type := mkConfig {
  (* pool *)
  area_m2 : Q;
  volume_m3 : Q;
  target_temp : Q;
  min_temp : Q;
  max_temp : Q;
  (* operation *)
  activity_factor : Q;
  cover_enabled : bool;
  cover_u_value_w_m2_k : Q;
  cover_solar_transmittance : Q;
  (* new_water *)
  nw_enabled : bool;
  bathers_per_day : Q;
  refill_liters_per_bather : Q;
  refill_cold_water_temp : Q;
  shower_liters_per_bather : Q;
  shower_target_temp : Q;
  shower_hot_water_temp : Q;
  shower_hp_max_temp : Q;
  shower_connected_to_pool_system : bool;
  (* solar, weather *)
  absorptance : Q;
  wind_factor : Q;
  (* heating_system *)
  hp_capacity_kw : Q;
  boiler_capacity_kw : Q;
  hp_cop_nominal : Q;
  (* control *)
  control_mode : string
}.

(** [{'hours_until': ..., 'period': ...}] *)
Record NextOpening : Type := mkNextOpening {
  hours_until : Z;
  no_period : Period
}.

(** The scheduler object of the simulator.  Its class
    ([pool_scheduler_v3_6_0_3.PoolScheduler]) is imported from a module
    that is not part of the sources; the engine is parametric in the six
    methods it calls. *)
Record Scheduler : Type := mkSchedulerOps {
  is_open : Timestamp -> result bool;
  get_periods : Date -> result (list Period);
  get_period_duration : Period -> result Z;
  get_next_opening_info : Timestamp -> list Period -> result (option NextOpening);
  get_daily_transitions : Date -> result (list Transition);
  get_current_period_info : Timestamp -> list Period -> result (option Period)
}.

(** The attributes of a [PoolEnergySystemV56] object that the engine
    reads: the configuration, the scheduler, the floor flux of
    [ground_temps] and the tunnel table (rows
    [(T_outdoor_C, T_tunnel_with_C)], absent when it could not be
    loaded). *)
Record System : Type := mkSystem {
  config : Config;
  scheduler : Scheduler;
  q_pool_W_m2 : Q;
  tunnel_df : option (list (Q * Q))
}.

(** [{'Q_total': ..., 'Q_losses': ..., ...}] of [calculate_heat_demand] *)
Record Demand : Type := mkDemand {
  Q_total : Q;
  Q_losses : Q;
  Q_solar : Q;
  Q_pool_refill : Q;
  Q_shower_thermal : Q;
  Q_shower_electric : Q;
  Q_evap : Q;
  Q_conv : Q;
  Q_rad : Q;
  Q_floor : Q;
  Q_walls : Q;
  covered : bool;
  pool_open : bool;
  T_tunnel : Q;
  u_effective : Q
}.

(** [df.iloc[i]]: a negative position counts from the end. *)
Definition iloc {A : Type} (df : list A) (i : Z) : result A :=
  let j := if (i <? 0)%Z then (Py.len df + i)%Z else i in
  if (j <? 0)%Z then Raise IndexError
  else match List.nth_error df (Z.to_nat j) with
       | Some a => Ok a
       | None => Raise IndexError
       end.

(** The loop
    [for i in range(n): if start + i >= len(df): break; row = df.iloc[start + i]; ...]
    with the accumulator threaded through [body]. *)
Fixpoint for_rows_from {A R : Type} (df : list R) (start : Z) (idxs : list Z)
         (body : A -> R -> result A) (acc : A) : result A :=
  match idxs with
  | [] => Ok acc
  | i :: rest =>
      if (Py.len df <=? start + i)%Z then Ok acc
      else
        row ← iloc df (start + i)%Z;
        acc' ← body acc row;
        for_rows_from df start rest body acc'
  end.

Definition for_rows {A R : Type} (df : list R) (start n : Z)
           (body : A -> R -> result A) (acc : A) : result A :=
  for_rows_from df start (Py.range n) body acc.

Section Engine.

(** [np.exp(x)] and [x ** 0.695]. *)
Variable np_exp : Q -> Q.
Variable pow_0695 : Q -> Q.

Variable self : System.

(** [self.thermal_mass_rate], in kWh/K. *)
Definition thermal_mass_rate : Q :=
  let mass_kg := volume_m3 (config self) * 1000 in
  mass_kg * 4186 / 3600000.

(** [np.argmin(np.abs(temps - T_outdoor))]: the first row at minimal
    distance. *)
Fixpoint nearest_row (T_outdoor : Q) (best : Q * Q) (rows : list (Q * Q)) : Q * Q :=
  match rows with
  | [] => best
  | r :: rest =>
      if Py.ltb (Py.abs (fst r - T_outdoor)) (Py.abs (fst best - T_outdoor))
      then nearest_row T_outdoor r rest
      else nearest_row T_outdoor best rest
  end.

Definition get_tunnel_temp (T_outdoor : Q) : result Q :=
  match tunnel_df self with
  | Some [] => Raise ValueError
  | Some (r :: rows) => Ok (snd (nearest_row T_outdoor r rows))
  | None => Ok (Py.max (T_outdoor + 10.5) 2.0)
  end.

Definition is_pool_open (timestamp : Timestamp) : result bool :=
  is_open (scheduler self) timestamp.

Definition is_covered (timestamp : Timestamp) : result bool :=
  if negb (cover_enabled (config self)) then Ok false
  else
    o ← is_pool_open timestamp;
    Ok (negb o).

Definition calculate_cop (T_outdoor : Q) : Q := hp_cop_nominal (config self).

(** Returns [(Q_evap, P_water, P_air_actual)]. *)
Definition calculate_evaporation (T_water T_air wind_speed humidity : Q)
           (is_open : bool) : result (Q * Q * Q) :=
  ew ← Py.div (17.67 * T_water) (T_water + 243.5);
  ea ← Py.div (17.67 * T_air) (T_air + 243.5);
  let P_water := 611.2 * np_exp ew in
  let P_air := 611.2 * np_exp ea in
  let v_eff := wind_speed * wind_factor (config self) in
  let delta_P := P_water - P_air * (humidity / 100) in
  let L_v := 2454000 in
  let E_per_m2 := (0.28 + 0.784 * v_eff) * pow_0695 delta_P / L_v in
  let E_per_m2 :=
    if is_open then E_per_m2 * activity_factor (config self) else E_per_m2 in
  let E_total := E_per_m2 * area_m2 (config self) in
  let Q_evap := E_total * L_v / 1000 in
  let P_air_actual := P_air * (humidity / 100) in
  Ok (Q_evap, P_water, P_air_actual).

(** The divisor of the Bowen ratio after the guard
    [if abs(delta_P) < 1.0: delta_P = 1.0 if delta_P >= 0 else -1.0]. *)
Definition clamp_delta_P (delta_P : Q) : Q :=
  if Py.ltb (Py.abs delta_P) 1.0 then
    (if Py.leb 0 delta_P then 1.0 else -1.0)
  else delta_P.

(** [Bo] of [calculate_convection]. *)
Definition bowen_ratio (T_water T_air P_water P_air : Q) : result Q :=
  let c_p := 1005 in
  let p_atm := 101325 in
  let L_v := 2454000 in
  let delta_T := T_water - T_air in
  let delta_P := clamp_delta_P (P_water - P_air) in
  k ← Py.div (c_p * p_atm) (0.622 * L_v);
  Py.div (k * delta_T) delta_P.

Definition calculate_convection (T_water T_air Q_evap P_water P_air : Q)
  : result Q :=
  Bo ← bowen_ratio T_water T_air P_water P_air;
  let Q_conv := Bo * Q_evap in
  Ok (Py.max 0 Q_conv).

Definition calculate_radiation (T_water T_air : Q) : Q :=
  let sigma := 5.67e-8 in
  let epsilon := 0.95 in
  let T_w_K := T_water + 273.15 in
  let T_sky_K := (T_air - 10) + 273.15 in
  let Q_rad :=
    sigma * epsilon * area_m2 (config self) * (T_w_K ^ 4 - T_sky_K ^ 4) / 1000 in
  Py.max 0 Q_rad.

Definition calculate_solar_gain (ghi : Q) : Q :=
  let alpha := absorptance (config self) in
  ghi * alpha * area_m2 (config self) / 1000.

(** Returns [(losses['floor'], losses['walls'])]. *)
Definition calculate_structural_losses (T_water T_tunnel : Q) : Q * Q :=
  let area := area_m2 (config self) in
  let q_pool := q_pool_W_m2 self in
  let floor := q_pool * area * (T_water - 5) / (28 - 5) / 1000 in
  let wall_area := 150 in
  let u_walls := 0.58 in
  let walls := u_walls * wall_area * (T_water - T_tunnel) / 1000 in
  (floor, walls).

(** The opening hours of a list of periods (the loop of
    [calculate_new_water_load]). *)
Definition total_hours_open (periods : list Period) : Z :=
  List.fold_left
    (fun hours_open period =>
       if (p_from period <? p_to period)%Z
       then (hours_open + (p_to period - p_from period))%Z
       else (hours_open + (24 - p_from period + p_to period))%Z)
    periods 0%Z.

(** Returns [(Q_pool_refill, Q_shower_thermal, Q_shower_electric)]. *)
Definition calculate_new_water_load (timestamp : Timestamp) (T_pool : Q)
  : result (Q * Q * Q) :=
  let cfg := config self in
  if negb (nw_enabled cfg) then Ok (0, 0, 0)
  else
    o ← is_pool_open timestamp;
    if negb o then Ok (0, 0, 0)
    else
      periods ← get_periods (scheduler self) (ts_date timestamp);
      let hours_open := inject_Z (total_hours_open periods) in
      let liters_refill := refill_liters_per_bather cfg in
      let T_cold := refill_cold_water_temp cfg in
      let thermal_per_bather_refill :=
        (liters_refill * 4.186 * (T_pool - T_cold)) / 3600 in
      Q_pool_refill ← Py.div (bathers_per_day cfg * thermal_per_bather_refill) hours_open;
      let liters_shower := shower_liters_per_bather cfg in
      let T_shower_target := shower_target_temp cfg in
      let T_hot := shower_hot_water_temp cfg in
      let T_hp_max := shower_hp_max_temp cfg in
      liters_hot ← Py.div (liters_shower * (T_shower_target - T_cold)) (T_hot - T_cold);
      if negb (shower_connected_to_pool_system cfg) then
        let thermal_per_bather_shower :=
          (liters_hot * 4.186 * (T_hot - T_cold)) / 3600 in
        Q_shower_thermal ← Py.div (bathers_per_day cfg * thermal_per_bather_shower) hours_open;
        Ok (Q_pool_refill, Q_shower_thermal, 0)
      else
        let thermal_phase1 :=
          (liters_hot * 4.186 * (T_hp_max - T_cold)) / 3600 in
        let cop_shower := 4.5 in
        let electric_phase1 := thermal_phase1 / cop_shower in
        let thermal_phase2 :=
          (liters_hot * 4.186 * (T_hot - T_hp_max)) / 3600 in
        let electric_phase2 := thermal_phase2 in
        let electric_per_bather := electric_phase1 + electric_phase2 in
        Q_shower_electric ← Py.div (bathers_per_day cfg * electric_per_bather) hours_open;
        Ok (Q_pool_refill, 0, Q_shower_electric).

Definition calculate_cover_u_effective (u_rated wind_speed : Q) : Q :=
  let v_eff := wind_speed * wind_factor (config self) in
  let h_natural := 7.0 in
  let h_wind := 5.7 + 3.8 * v_eff in
  let attempt :=
    a ← Py.div 1.0 u_rated;
    b ← Py.div 1.0 h_natural;
    c ← Py.div 1.0 h_wind;
    Py.div 1.0 (a - b + c) in
  let u_effective :=
    match attempt with
    | Ok u => u
    | Raise _ => u_rated
    end in
  Py.max u_effective u_rated.

Definition calculate_heat_demand (T_water : Q) (weather_row : WeatherRow)
           (timestamp : Timestamp) : result Demand :=
  let T_outdoor := temperature weather_row in
  T_tunnel ← get_tunnel_temp T_outdoor;
  let T_air := T_outdoor in
  let wind := wind_speed weather_row in
  let humidity := default 70 (humidity weather_row) in
  let ghi := default 0 (ghi weather_row) in
  is_open ← is_pool_open timestamp;
  '(Q_evap, P_water, P_air) ← calculate_evaporation T_water T_air wind humidity is_open;
  Q_conv ← calculate_convection T_water T_air Q_evap P_water P_air;
  let Q_rad := calculate_radiation T_water T_air in
  let Q_solar := calculate_solar_gain ghi in
  is_covered ← is_covered timestamp;
  let '(u_effective, Q_evap, Q_conv, Q_rad, Q_surface_loss, Q_solar) :=
    if (is_covered : bool) return (Q * Q * Q * Q * Q * Q) then
      let u_rated := cover_u_value_w_m2_k (config self) in
      let u_effective := calculate_cover_u_effective u_rated wind in
      let area := area_m2 (config self) in
      let Q_surface_covered := u_effective * area * (T_water - T_air) / 1000 in
      (u_effective, 0, 0, 0, Q_surface_covered,
       Q_solar * cover_solar_transmittance (config self))
    else
      (0, Q_evap, Q_conv, Q_rad, Q_evap + Q_conv + Q_rad, Q_solar) in
  let '(floor, walls) := calculate_structural_losses T_water T_tunnel in
  '(Q_pool_refill, Q_shower_thermal, Q_shower_electric) ←
    calculate_new_water_load timestamp T_water;
  let Q_losses := Q_surface_loss + floor + walls in
  let Q_net := Q_losses + Q_pool_refill + Q_shower_electric - Q_solar in
  Ok {| Q_total := Q_net;
        Q_losses := Q_losses;
        Q_solar := Q_solar;
        Q_pool_refill := Q_pool_refill;
        Q_shower_thermal := Q_shower_thermal;
        Q_shower_electric := Q_shower_electric;
        Q_evap := Q_evap;
        Q_conv := Q_conv;
        Q_rad := Q_rad;
        Q_floor := floor;
        Q_walls := walls;
        covered := is_covered;
        pool_open := is_open;
        T_tunnel := T_tunnel;
        u_effective := u_effective |}.

(** *** Planning *)

(** The open plan returned by [plan_period_opening]. *)
Record OpenPlan : Type := mkOpenPlan {
  hp_rate_day : Q;
  boiler_rate_day : Q;
  temp_start : Q;
  day_demand : Q;
  energy_buffer : Q;
  open_case : Z
}.

(** The closed plan returned by [plan_closed_period]. *)
Record ClosedPlan : Type := mkClosedPlan {
  case : Z;
  target_night : Q;
  day_hp_power : Q;
  day_boiler_power : Q;
  start_hp_in : Q;
  start_boiler_in : option Q;
  night_hp_power : Q;
  night_boiler_power : Q;
  hours_to_open : Z;
  forecast_demand : Q;
  energy_needed : Q
}.

(** Sum of [Q_total] over the rows [start .. start + n - 1] that exist,
    each evaluated at the water temperature [T]. *)
Definition sum_demand (weather_df : list WeatherRow) (start n : Z) (T : Q)
  : result Q :=
  for_rows weather_df start n
    (fun acc row =>
       demand ← calculate_heat_demand T row (timestamp row);
       Ok (acc + Q_total demand))
    0.

Definition plan_period_opening (current_idx : Z) (T_water : Q)
           (weather_df : list WeatherRow) (current_period : Period)
  : result OpenPlan :=
  let pool_config := config self in
  let hp_config := config self in
  period_hours ← get_period_duration (scheduler self) current_period;
  day_demand_total ← sum_demand weather_df current_idx period_hours T_water;
  let temp_excess := Py.max 0 (T_water - target_temp pool_config) in
  let energy_buffer := temp_excess * thermal_mass_rate in
  let hp_capacity := hp_capacity_kw hp_config in
  let hp_available := hp_capacity * inject_Z period_hours in
  let total_available := energy_buffer + hp_available in
  '(hp_rate, boiler_rate) ←
    (if Py.geb total_available day_demand_total then
       hp_rate ← Py.div (day_demand_total - energy_buffer) (inject_Z period_hours);
       Ok (Py.max 0 (Py.min hp_rate hp_capacity), 0)
     else
       let hp_rate := hp_capacity in
       let energy_shortfall := day_demand_total - total_available in
       boiler_rate ← Py.div energy_shortfall (inject_Z period_hours);
       Ok (hp_rate, boiler_rate));
  (* the row read by the debug print *)
  _ ← iloc weather_df current_idx;
  Ok {| hp_rate_day := hp_rate;
        boiler_rate_day := boiler_rate;
        temp_start := T_water;
        day_demand := day_demand_total;
        energy_buffer := energy_buffer;
        open_case := if Py.eqb boiler_rate 0 then 1 else 2 |}.

(** The four-case block of [plan_closed_period] (it occurs twice, after
    the first and after the second forecast); the result is
    [(case, target_night, day_hp_power, day_boiler_power)]. *)
Definition classify_demand (avg_demand : Q) : result (Z * Q * Q * Q) :=
  let pool_config := config self in
  let hp_capacity := hp_capacity_kw (config self) in
  let boiler_capacity := boiler_capacity_kw (config self) in
  let target := target_temp pool_config in
  if Py.leb avg_demand hp_capacity then
    Ok (1%Z, target, avg_demand, 0)
  else if Py.leb avg_demand (hp_capacity + thermal_mass_rate) then
    extra_temp ← Py.div ((avg_demand - hp_capacity) * 10) thermal_mass_rate;
    Ok (2%Z, Py.min (target + extra_temp) (max_temp pool_config), hp_capacity, 0)
  else if Py.leb avg_demand (hp_capacity + boiler_capacity) then
    Ok (3%Z, max_temp pool_config, hp_capacity, avg_demand - hp_capacity)
  else
    Ok (4%Z, max_temp pool_config, hp_capacity, boiler_capacity).

(** [sum(l) / len(l) if l else 0] *)
Definition average (l : list Q) : result Q :=
  match l with
  | [] => Ok 0
  | _ => Py.div (Py.sum l) (inject_Z (Py.len l))
  end.

(** The forecast loops of the second and third pass: ten rows from
    [forecast_start], the simulated temperature integrated under the
    supply [Q_supplied] and kept in [[min_temp, max_temp]]. *)
Definition simulate_day (weather_df : list WeatherRow) (forecast_start : Z)
           (T_start Q_supplied : Q) : result (list Q * Q) :=
  let pool_config := config self in
  for_rows weather_df forecast_start 10
    (fun '(day_demand, T_sim_day) row =>
       demand ← calculate_heat_demand T_sim_day row (timestamp row);
       let Q_demand := Q_total demand in
       let Q_net := Q_supplied - Q_demand in
       delta_T ← Py.div Q_net thermal_mass_rate;
       let T_sim_day := T_sim_day + delta_T in
       let T_sim_day :=
         Py.max (min_temp pool_config) (Py.min T_sim_day (max_temp pool_config)) in
       Ok (day_demand ++ [Q_demand], T_sim_day))
    ([], T_start).

(** The demands of the first pass: ten rows at a fixed temperature. *)
Definition forecast_day (weather_df : list WeatherRow) (forecast_start : Z)
           (T_estimate : Q) : result (list Q) :=
  for_rows weather_df forecast_start 10
    (fun day_demand row =>
       demand ← calculate_heat_demand T_estimate row (timestamp row);
       Ok (day_demand ++ [Q_total demand]))
    [].

(** The tail of [plan_closed_period], from "Determine if we need
    boiler": [(start_hp_in, start_boiler_in, night_hp_power,
    night_boiler_power)]. *)
Definition night_dispatch (total_energy_needed hours_available hours_hp_needed : Q)
  : result (Q * option Q * Q * Q) :=
  let hp_capacity := hp_capacity_kw (config self) in
  let boiler_capacity := boiler_capacity_kw (config self) in
  let hp_energy_available := hp_capacity * hours_available in
  if Py.leb total_energy_needed hp_energy_available then
    let start_hp_in := Py.max 0 (hours_available - hours_hp_needed) in
    Ok (start_hp_in, None, hp_capacity, 0)
  else
    let start_hp_in := 0 in
    let hp_contribution := hp_capacity * hours_available in
    let boiler_energy_needed := total_energy_needed - hp_contribution in
    hours_boiler_needed ← Py.div boiler_energy_needed boiler_capacity;
    let start_boiler_in := Py.max 0 (hours_available - hours_boiler_needed) in
    Ok (start_hp_in, Some start_boiler_in, hp_capacity, boiler_capacity).

(** "Calculate required heating hours and start time":
    [(total_energy_needed, hours_hp_needed)]. *)
Definition night_energy (current_idx : Z) (T_water : Q)
           (weather_df : list WeatherRow)
           (temp_rise losses_per_hour energy_for_temp hours_available : Q)
  : result (Q * Q) :=
  let hp_capacity := hp_capacity_kw (config self) in
  if Py.gtb temp_rise 0.1 then
    let net_heating_power := Py.max 0 (hp_capacity - losses_per_hour) in
    hours_hp_needed ←
      (if Py.gtb net_heating_power 0 then
         hours_for_temp_rise ← Py.div energy_for_temp net_heating_power;
         Ok (Py.min hours_available (hours_for_temp_rise * 1.2))
       else Ok hours_available);
    let wait_hours := Py.max 0 (hours_available - hours_hp_needed) in
    if Py.gtb wait_hours 0 then
      wait_losses ← sum_demand weather_df current_idx (Py.int wait_hours) T_water;
      Ok (energy_for_temp + wait_losses + losses_per_hour * hours_hp_needed,
          hours_hp_needed)
    else
      Ok (energy_for_temp + losses_per_hour * hours_hp_needed, hours_hp_needed)
  else
    let total_energy_needed := losses_per_hour * hours_available in
    hours_hp_needed ←
      (if Py.gtb hp_capacity 0 then Py.div total_energy_needed hp_capacity
       else Ok hours_available);
    Ok (total_energy_needed, hours_hp_needed).

Definition plan_closed_period (current_idx : Z) (T_water : Q)
           (weather_df : list WeatherRow) (timestamp : Timestamp)
  : result (option ClosedPlan) :=
  let pool_config := config self in
  let hp_config := config self in
  let date := ts_date timestamp in
  periods ← get_periods (scheduler self) date;
  next_info ← get_next_opening_info (scheduler self) timestamp periods;
  match next_info with
  | None => Ok None
  | Some next_info =>
      let hours_to_open := hours_until next_info in
      let T_avg_estimate :=
        (T_water + Py.min (T_water + 2) (max_temp pool_config)) / 2 in
      night_losses ← sum_demand weather_df current_idx hours_to_open T_avg_estimate;
      let forecast_start := (current_idx + hours_to_open)%Z in
      (* ITERATION 1 *)
      let T_estimate := target_temp pool_config in
      day_demand ← forecast_day weather_df forecast_start T_estimate;
      avg_demand ← average day_demand;
      let hp_capacity := hp_capacity_kw hp_config in
      let target := target_temp pool_config in
      '(case, target_night, day_hp_power, day_boiler_power) ←
        classify_demand avg_demand;
      (* ITERATION 2 *)
      '(day_demand, _) ← simulate_day weather_df forecast_start target_night hp_capacity;
      avg_demand ← average day_demand;
      '(case, target_night, day_hp_power, day_boiler_power) ←
        classify_demand avg_demand;
      (* ITERATION 3 *)
      '(day_demand_final, _) ←
        simulate_day weather_df forecast_start target_night
                     (day_hp_power + day_boiler_power);
      avg_demand_final ← average day_demand_final;
      target_night ←
        (if (case =? 2)%Z && Py.gtb avg_demand_final (hp_capacity + 5) then
           extra_temp ← Py.div ((avg_demand_final - hp_capacity) * 10) thermal_mass_rate;
           Ok (Py.min (target + extra_temp + 0.2) (max_temp pool_config))
         else Ok target_night);
      (* night heating requirements *)
      let temp_rise := Py.max 0 (target_night - T_water) in
      let hours_available := inject_Z hours_to_open in
      let T_avg_heating := (T_water + target_night) / 2 in
      losses_per_hour ←
        sum_demand weather_df current_idx (Z.min hours_to_open 5) T_avg_heating;
      losses_per_hour ←
        (if Py.gtb losses_per_hour 0
         then Py.div losses_per_hour (inject_Z (Z.min hours_to_open 5))
         else Ok losses_per_hour);
      let energy_for_temp := temp_rise * thermal_mass_rate in
      '(total_energy_needed, hours_hp_needed) ←
        night_energy current_idx T_water weather_df
                     temp_rise losses_per_hour energy_for_temp hours_available;
      '(start_hp_in, start_boiler_in, night_hp_power, night_boiler_power) ←
        night_dispatch total_energy_needed hours_available hours_hp_needed;
      Ok (Some {| case := case;
                  target_night := target_night;
                  day_hp_power := day_hp_power;
                  day_boiler_power := day_boiler_power;
                  start_hp_in := start_hp_in;
                  start_boiler_in := start_boiler_in;
                  night_hp_power := night_hp_power;
                  night_boiler_power := night_boiler_power;
                  hours_to_open := hours_to_open;
                  forecast_demand := avg_demand;
                  energy_needed := total_energy_needed |})
  end.

(** *** Hourly control *)

(** The dictionary returned by [execute_control]. *)
Record Control : Type := mkControl {
  Q_needed : Q;
  Q_hp : Q;
  Q_boiler : Q;
  Q_delivered : Q;
  Q_unmet : Q;
  cop : Q;
  hp_electric : Q;
  mode : string;
  control_case : Z;
  preheat : bool
}.

(** The attributes [self.open_plan] and [self.closed_plan]; an
    attribute that was never assigned reads as [None]. *)
Record PlannerState : Type := mkPlannerState {
  open_plan : option OpenPlan;
  closed_plan : option ClosedPlan
}.

Definition initial_state : PlannerState :=
  {| open_plan := None; closed_plan := None |}.

(** [Q_hp / cop if cop > 0 else 0] *)
Definition hp_electric_of (Q_hp cop : Q) : Q :=
  if Py.gtb cop 0 then Q_hp / cop else 0.

(** The thermostat dispatch of the reactive mode and of a day without
    periods (the same statements under two mode labels). *)
Definition thermostat (Q_demand T_water cop : Q) (label : string) : Control :=
  let pool_config := config self in
  let hp_config := config self in
  let temp_error := target_temp pool_config - T_water in
  let Q_needed :=
    if Py.ltb T_water (target_temp pool_config) then
      let Q_recovery := Py.min (temp_error * thermal_mass_rate) 200 in
      Q_demand + Q_recovery
    else Q_demand in
  let Q_hp := Py.min Q_needed (hp_capacity_kw hp_config) in
  let Q_boiler := Py.min (Q_needed - Q_hp) (boiler_capacity_kw hp_config) in
  {| Q_needed := Q_needed;
     Q_hp := Q_hp;
     Q_boiler := Q_boiler;
     Q_delivered := Q_hp + Q_boiler;
     Q_unmet := Py.max 0 (Q_needed - Q_hp - Q_boiler);
     cop := cop;
     hp_electric := hp_electric_of Q_hp cop;
     mode := label;
     control_case := 0;
     preheat := false |}.

(** [timestamp.replace(hour=h, minute=0, second=0, microsecond=0)] *)
Definition replace_hour (ts : Timestamp) (h : Z) : result Timestamp :=
  if ((0 <=? h) && (h <=? 23))%Z then Ok (mkTimestamp (ts_date ts) h)
  else Raise ValueError.

(** [ts - pd.Timedelta(days=n)] *)
Definition minus_days (ts : Timestamp) (n : Z) : Timestamp :=
  mkTimestamp (add_days (ts_date ts) (- n)) (ts_hour ts).

(** [(a - b).total_seconds() / 3600] *)
Definition hours_between (a b : Timestamp) : Q :=
  inject_Z ((to_ordinal (ts_date a) - to_ordinal (ts_date b)) * 24
            + (ts_hour a - ts_hour b)).

(** "Calculate hours since plan was made": the time of the most recent
    close. *)
Definition plan_time_of (timestamp : Timestamp) (periods : list Period)
  : result Timestamp :=
  let hour := ts_hour timestamp in
  let date := ts_date timestamp in
  match List.find (fun period => (p_to period <=? hour)%Z) (List.rev periods) with
  | Some period => replace_hour timestamp (p_to period)
  | None =>
      let yesterday := add_days date (-1) in
      yesterday_periods ← get_periods (scheduler self) yesterday;
      match List.last (List.map Some yesterday_periods) None with
      | Some period =>
          ts ← replace_hour timestamp (p_to period);
          Ok (minus_days ts 1)
      | None => replace_hour timestamp 0
      end
  end.

(** The fractional-hour activation rule: [(active, power_factor)] for a
    start time given in hours after the plan was made. *)
Definition activation (hours_since_plan start_in : Q) : bool * Q :=
  let start_hour := Py.floor start_in in
  let fractional := start_in - inject_Z start_hour in
  if Py.geb hours_since_plan start_in then (true, 1.0)
  else if Py.geb hours_since_plan (inject_Z start_hour) then (true, 1.0 - fractional)
  else (false, 0.0).

Definition case_label (prefix : string) (c : Z) (suffix : string) : string :=
  String.append prefix (String.append (pretty c) suffix).

(** The closed-period dispatch under a plan:
    [(Q_needed, Q_hp, Q_boiler, mode, preheat)]. *)
Definition closed_dispatch (plan : ClosedPlan) (Q_demand T_water : Q)
           (timestamp : Timestamp) (periods : list Period)
  : result (Q * Q * Q * string * bool) :=
  let hp_config := config self in
  plan_time ← plan_time_of timestamp periods;
  let hours_since_plan := hours_between timestamp plan_time in
  let hours_remaining := inject_Z (hours_to_open plan) - hours_since_plan in
  let '(hp_active, power_factor) := activation hours_since_plan (start_hp_in plan) in
  let '(boiler_active, boiler_power_factor) :=
    match start_boiler_in plan with
    | Some start_boiler_in => activation hours_since_plan start_boiler_in
    | None => (false, 0.0)
    end in
  let temp_error := target_night plan - T_water in
  '(Q_needed, preheat, mode) ←
    (if hp_active && Py.gtb temp_error 0.1 && Py.gtb hours_remaining 0 then
       let energy_needed := temp_error * thermal_mass_rate in
       Q_recovery ← Py.div energy_needed hours_remaining;
       let Q_recovery := Py.max 0 (Py.min Q_recovery 400) in
       Ok (Q_demand + Q_recovery, true,
           if boiler_active
           then case_label "closed_case" (case plan) "_heat_hp+boiler"
           else case_label "closed_case" (case plan) "_heat_hp")
     else if hp_active && Py.gtb hours_remaining 0 then
       let temp_still_needed := target_night plan - T_water in
       '(Q_needed, preheat, mode) ←
         (if Py.gtb temp_still_needed 0.05 then
            let energy_for_temp := temp_still_needed * thermal_mass_rate in
            let energy_for_losses := Q_demand * hours_remaining in
            let total_energy := energy_for_temp + energy_for_losses in
            Q_required ← Py.div total_energy hours_remaining;
            Ok (Q_required, true,
                case_label "closed_case" (case plan) "_heat_recalc")
          else
            Ok (Q_demand, false,
                case_label "closed_case" (case plan) "_maintain"));
       (* neither label contains "_hp", so [replace] never applies *)
       Ok (Q_needed, preheat,
           if boiler_active then String.append mode "_hp+boiler" else mode)
     else
       Ok (Q_demand, false, case_label "closed_case" (case plan) "_wait"));
  let '(Q_hp, Q_boiler) :=
    if hp_active then
      let Q_hp := Py.min Q_needed (night_hp_power plan * power_factor) in
      if boiler_active then
        (Q_hp, Py.min (Q_needed - Q_hp) (night_boiler_power plan * boiler_power_factor))
      else (Q_hp, 0)
    else (Py.min Q_demand (hp_capacity_kw hp_config), 0) in
  Ok (Q_needed, Q_hp, Q_boiler, mode, preheat).

(** "Check for transitions and trigger planning": the loop over the
    transitions of the day. *)
Fixpoint apply_transitions (st : PlannerState) (transitions : list Transition)
         (current_idx : Z) (T_water : Q) (weather_df : list WeatherRow)
         (timestamp : Timestamp) (periods : list Period) : result PlannerState :=
  match transitions with
  | [] => Ok st
  | transition :: rest =>
      let hour := ts_hour timestamp in
      st' ←
        (if (hour =? t_time transition)%Z then
           match t_type transition with
           | TOpen =>
               match List.find (fun period => (p_from period =? hour)%Z) periods with
               | Some period =>
                   plan ← plan_period_opening current_idx T_water weather_df period;
                   Ok {| open_plan := Some plan; closed_plan := closed_plan st |}
               | None => Ok st
               end
           | TClose =>
               plan ← plan_closed_period current_idx T_water weather_df timestamp;
               Ok {| open_plan := open_plan st; closed_plan := plan |}
           end
         else Ok st);
      apply_transitions st' rest current_idx T_water weather_df timestamp periods
  end.

(** [execute_control]: the dispatch of one hour and the planner state
    after it. *)
Definition execute_control (st : PlannerState) (current_idx : Z) (T_water : Q)
           (weather_df : list WeatherRow) (timestamp : Timestamp)
  : result (Control * PlannerState) :=
  let pool_config := config self in
  let hp_config := config self in
  let control_mode := control_mode (config self) in
  row ← iloc weather_df current_idx;
  demand ← calculate_heat_demand T_water row timestamp;
  let Q_demand := Q_total demand in
  let cop := calculate_cop (temperature row) in
  let hour := ts_hour timestamp in
  let date := ts_date timestamp in
  if String.eqb control_mode "reactive" then
    Ok (thermostat Q_demand T_water cop "reactive", st)
  else
    periods ← get_periods (scheduler self) date;
    match periods with
    | [] => Ok (thermostat Q_demand T_water cop "no_periods", st)
    | _ :: _ =>
        transitions ← get_daily_transitions (scheduler self) date;
        st ← apply_transitions st transitions current_idx T_water weather_df
                               timestamp periods;
        current_period_info ←
          get_current_period_info (scheduler self) timestamp periods;
        '(st, Q_needed, Q_hp, Q_boiler, mode, preheat) ←
          match current_period_info with
          | Some period =>
              (* OPEN PERIOD *)
              plan ←
                match open_plan st with
                | Some plan => Ok plan
                | None => plan_period_opening current_idx T_water weather_df period
                end;
              let st := {| open_plan := Some plan; closed_plan := closed_plan st |} in
              let Q_needed := Q_demand in
              let Q_hp := Py.min (hp_rate_day plan) (hp_capacity_kw hp_config) in
              let Q_boiler :=
                Py.min (boiler_rate_day plan) (boiler_capacity_kw hp_config) in
              let mode :=
                if Py.gtb Q_boiler 0
                then case_label "open_case" (open_case plan) "_hp+boiler"
                else case_label "open_case" (open_case plan) "_hp" in
              Ok (st, Q_needed, Q_hp, Q_boiler, mode, false)
          | None =>
              (* CLOSED PERIOD *)
              closed ←
                match closed_plan st with
                | Some plan => Ok (Some plan)
                | None => plan_closed_period current_idx T_water weather_df timestamp
                end;
              let st := {| open_plan := open_plan st; closed_plan := closed |} in
              match closed with
              | None =>
                  Ok (st, Q_demand, Py.min Q_demand (hp_capacity_kw hp_config), 0,
                      "closed_no_plan"%string, false)
              | Some plan =>
                  '(Q_needed, Q_hp, Q_boiler, mode, preheat) ←
                    closed_dispatch plan Q_demand T_water timestamp periods;
                  Ok (st, Q_needed, Q_hp, Q_boiler, mode, preheat)
              end
          end;
        let Q_delivered := Q_hp + Q_boiler in
        let Q_unmet := Py.max 0 (Q_needed - Q_delivered) in
        let case :=
          match current_period_info, open_plan st, closed_plan st with
          | Some _, Some plan, _ => open_case plan
          | None, _, Some plan => case plan
          | _, _, _ => 0%Z
          end in
        Ok ({| Q_needed := Q_needed;
               Q_hp := Q_hp;
               Q_boiler := Q_boiler;
               Q_delivered := Q_delivered;
               Q_unmet := Q_unmet;
               cop := cop;
               hp_electric := hp_electric_of Q_hp cop;
               mode := mode;
               control_case := case;
               preheat := preheat |}, st)
    end.

(** *** The simulation loop *)

(** One entry of [results] (the fields copied from the weather row are
    left out). *)
Record HourRecord : Type := mkHourRecord {
  hr_timestamp : Timestamp;
  water_temp : Q;
  hr_demand : Demand;
  hr_control : Control
}.

(** One iteration of the loop of [simulate_year]:
    [(record, T_water_new, planner state)]. *)
Definition simulate_hour (st : PlannerState) (idx : Z) (T_water : Q)
           (df : list WeatherRow) (row : WeatherRow)
  : result (HourRecord * Q * PlannerState) :=
  let timestamp := timestamp row in
  '(control, st) ← execute_control st idx T_water df timestamp;
  demand ← calculate_heat_demand T_water row timestamp;
  let dt := 3600 in
  let Q_net := Q_delivered control - Q_total demand in
  dT ← Py.div (Q_net * dt * 1000) (volume_m3 (config self) * 1000 * 4186);
  let T_water_new := T_water + dT in
  let T_water_new :=
    Py.max (min_temp (config self) - 1)
           (Py.min (max_temp (config self)) T_water_new) in
  Ok ({| hr_timestamp := timestamp;
         water_temp := T_water_new;
         hr_demand := demand;
         hr_control := control |}, T_water_new, st).

(** The loop [for idx, row in df.iterrows()] over the rows that remain,
    [idx] being the position of the first of them. *)
Fixpoint simulate_from (st : PlannerState) (idx : Z) (T_water : Q)
         (df rows : list WeatherRow) : result (list HourRecord) :=
  match rows with
  | [] => Ok []
  | row :: rest =>
      '(rec, T_water_new, st') ← simulate_hour st idx T_water df row;
      results ← simulate_from st' (idx + 1)%Z T_water_new df rest;
      Ok (rec :: results)
  end.

(** [simulate_year] on the merged weather frame [df]: the hourly
    records. *)
Definition simulate_year (df : list WeatherRow) : result (list HourRecord) :=
  let T_water := target_temp (config self) in
  simulate_from initial_state 0 T_water df df.

End Engine.
End Simulator.

(** ** A scheduler for the simulator *)

Module SpecScheduler.
Import Calendar Simulator.

Section Ops.

(** The periods that apply on a date (the result of schedule
    resolution). *)
Variable periods_of : Date -> list Period.

Definition open_at (date : Date) (hour : Z) : bool :=
  List.existsb (fun p => PoolSchedulerDB.period_contains p hour) (periods_of date).

(** Modelled from the spec: the forward search of [getNextOpeningInfo]
    (the method [get_next_opening_info] of the absent scheduler class),
    day by day over a bounded horizon: the first of the next [n] days,
    counted from [k] days ahead, that has a period. *)
Fixpoint search_days (date : Date) (hour : Z) (k : Z) (n : nat)
  : option NextOpening :=
  match n with
  | O => None
  | S n' =>
      match periods_of (add_days date k) with
      | period :: _ =>
          Some {| hours_until := 24 * k - hour + p_from period;
                  no_period := period |}
      | [] => search_days date hour (k + 1) n'
      end
  end.

(** Modelled from the spec: the class [PoolScheduler] of the absent
    module [pool_scheduler_v3_6_0_3].  Its operations follow section
    4.1: [isOpen] and [getCurrentPeriod] by the within-day containment
    test, [getDailyTransitions] sorted by hour, [getPeriodDuration]
    with the overnight wrap, and [getNextOpeningInfo] searching the
    rest of the day and then forward day by day for at most 30 days.
    Containment, transitions and duration are those of
    [PoolSchedulerDB]. *)
Definition make : Scheduler :=
  {| is_open := fun ts => Ok (open_at (ts_date ts) (ts_hour ts));
     get_periods := fun date => Ok (periods_of date);
     get_period_duration := fun p => Ok (PoolSchedulerDB.get_period_duration p);
     get_next_opening_info := fun ts periods =>
       match List.find (fun p => ts_hour ts <? p_from p) periods with
       | Some period =>
           Ok (Some {| hours_until := p_from period - ts_hour ts;
                       no_period := period |})
       | None => Ok (search_days (ts_date ts) (ts_hour ts) 1 30)
       end;
     get_daily_transitions := fun date =>
       Ok (sort_by_key t_time (PoolSchedulerDB.transitions_of (periods_of date) None));
     get_current_period_info := fun ts periods =>
       Ok (List.find (fun p => PoolSchedulerDB.period_contains p (ts_hour ts)) periods) |}.

End Ops.
End SpecScheduler.

(** ** Rational stand-ins for [np.exp] and [x ** 0.695]

    Used only to run the engine on concrete scenarios: both functions are
    evaluated by their series and rounded to nine decimals. *)

Module Approx.
Local Open Scope Q_scope.

Definition round9 (x : Q) : Q := Qfloor (x * 1000000000 + 0.5) # 1000000000.

(** Partial sum [sum_{k < n} term_k], each term obtained from the
    previous one by [next k]. *)
Fixpoint series (n : nat) (k : Z) (term acc : Q) (next : Z -> Q -> Q) : Q :=
  match n with
  | O => acc
  | S n' => series n' (k + 1)%Z (round9 (next k term)) (acc + term) next
  end.

Fixpoint repeat_square (n : nat) (x : Q) : Q :=
  match n with
  | O => x
  | S n' => repeat_square n' (round9 (x * x))
  end.

(** [exp x] as [(exp (x / 16)) ^ 16]. *)
Definition exp (x : Q) : Q :=
  let y := round9 (x / 16) in
  let e := series 10 1 1 0 (fun k t => t * y / inject_Z k) in
  repeat_square 4 (round9 e).

(** [ln x] for [0 < x], as [k ln 2 + 2 atanh ((m - 1) / (m + 1))]
    with [x = m 2^k], [1 <= m < 2]. *)
Definition ln (x : Q) : Q :=
  let k := (Z.log2 (Qfloor x))%Z in
  let m := x / inject_Z (2 ^ k) in
  let t := round9 ((m - 1) / (m + 1)) in
  let odd := series 9 0 t 0
               (fun j u => u * t * t * inject_Z (2 * j + 1) / inject_Z (2 * j + 3)) in
  round9 (inject_Z k * 0.693147181 + 2 * odd).

Definition pow_0695 (x : Q) : Q :=
  if Py.leb x 0 then 0 else exp (round9 (0.695 * ln x)).

End Approx.

(** ** The window test in the words of the specification, and examples *)

Module SchedulerSpec.
Import Calendar PoolSchedulerDB.

(** The order on [(month, day)] pairs in the words of the calendar:
    an earlier month, or the same month and a day that is not later. *)
Definition md_le (a b : Z * Z) : Prop :=
  fst a < fst b \/ (fst a = fst b /\ snd a <= snd b).

(** The recurring window test as the specification words it. *)
Definition in_window (start stop current : Z * Z) : Prop :=
  (md_le start stop -> md_le start current /\ md_le current stop) /\
  (~ md_le start stop -> md_le start current \/ md_le current stop).

(** The scheduler with another list of date-range programs. *)
Definition with_date_ranges (self : t) (l : list DateRange) : t :=
  {| template := template self;
     schedules := schedules self;
     week_schedules := week_schedules self;
     date_ranges := l;
     exception_days := exception_days self;
     holiday_dates := holiday_dates self |}.

(** The schedule of the specification's example: a year-crossing
    "Summer" program (20 December to 5 January) whose week pattern gives
    "Normal" every day, and the exception day "Christmas" on 25 December
    with the schedule "Closed". *)
Definition example_period : Period :=
  {| p_from := 10; p_to := 20; p_target_temp := 28;
     p_min_temp := None; p_max_temp := None |}.

Definition example_week : WeekSchedule :=
  {| ws_name := "Summer week";
     ws_days := list_to_map
       (List.map (fun d => (d, Some "Normal"%string)) weekday_short) |}.

Definition example_program (recurring : bool) : DateRange :=
  {| dr_id := 1; dr_name := "Summer"; dr_priority := 50; week_schedule_id := 2;
     start_month := 12; start_day := 20; end_month := 1; end_day := 5;
     is_recurring := recurring |}.

Definition example_christmas : ExceptionDay :=
  {| exc_id := 1; exc_name := "Christmas"; day_schedule_id := Some 3;
     day_schedule_name := Some "Closed"%string;
     fixed_month := Some 12; fixed_day := Some 25;
     is_moving := false; easter_offset := None; exc_priority := 100 |}.

Definition example_scheduler (recurring : bool) : t :=
  {| template := {| template_id := 1; template_name := "Default";
                    base_week_schedule_id := None |};
     schedules :=
       [("Closed"%string, mkDaySchedule 3 "" []);
        ("Normal"%string, mkDaySchedule 1 "" [example_period])];
     week_schedules := {[ 2 := example_week ]};
     date_ranges := [example_program recurring];
     exception_days := [example_christmas];
     holiday_dates := ∅ |}.

(** The exception days are in descending order of priority, as the
    query of [_load_exception_days] orders them
    ([ORDER BY ce.priority DESC]). *)
Definition by_priority (l : list ExceptionDay) : Prop :=
  StronglySorted (fun a b => exc_priority b <= exc_priority a) l.

(** A "Summer" program (25 June to 15 August) whose week pattern has
    entries for Saturday and Sunday only, over a base week that gives
    "Normal" on working days and "Weekend" on Saturday and Sunday. *)
Definition summer_week : WeekSchedule :=
  {| ws_name := "Summer week";
     ws_days := list_to_map
       [("sat"%string, Some "Summer"%string); ("sun"%string, Some "Summer"%string)] |}.

Definition base_week : WeekSchedule :=
  {| ws_name := "Base week";
     ws_days := list_to_map
       [("mon"%string, Some "Normal"%string); ("tue"%string, Some "Normal"%string);
        ("wed"%string, Some "Normal"%string); ("thu"%string, Some "Normal"%string);
        ("fri"%string, Some "Normal"%string); ("sat"%string, Some "Weekend"%string);
        ("sun"%string, Some "Weekend"%string)] |}.

Definition summer_program : DateRange :=
  {| dr_id := 1; dr_name := "Summer"; dr_priority := 50; week_schedule_id := 2;
     start_month := 6; start_day := 25; end_month := 8; end_day := 15;
     is_recurring := true |}.

Definition summer_scheduler : t :=
  {| template := {| template_id := 1; template_name := "Default";
                    base_week_schedule_id := Some 1 |};
     schedules :=
       [("Normal"%string, mkDaySchedule 1 "" [example_period]);
        ("Weekend"%string, mkDaySchedule 2 "" [example_period]);
        ("Summer"%string, mkDaySchedule 3 "" [example_period]);
        ("Closed"%string, mkDaySchedule 4 "" [])];
     week_schedules := {[ 1 := base_week; 2 := summer_week ]};
     date_ranges := [summer_program];
     exception_days := [example_christmas];
     holiday_dates := ∅ |}.

End SchedulerSpec.

(** ** Scenarios for the simulator *)

Module Scenario.
Import Calendar Simulator.
Local Open Scope Q_scope.

(** One period from 10:00 to 20:00 with target 28. *)
Definition daily_period : Period :=
  {| p_from := 10; p_to := 20; p_target_temp := 28;
     p_min_temp := None; p_max_temp := None |}.

(** Heat pump 100 kW, boiler 200 kW, target 28; an 80 m2 pool of
    160 m3; the other entries as in [DEFAULT_CONFIG]. *)
Definition scenario_config (control_mode : string) : Config :=
  {| area_m2 := 80; volume_m3 := 160;
     target_temp := 28.0; min_temp := 26.0; max_temp := 29.0;
     activity_factor := 1.0; cover_enabled := true;
     cover_u_value_w_m2_k := 5.0; cover_solar_transmittance := 0.10;
     nw_enabled := true; bathers_per_day := 200;
     refill_liters_per_bather := 30; refill_cold_water_temp := 5;
     shower_liters_per_bather := 60; shower_target_temp := 40;
     shower_hot_water_temp := 70; shower_hp_max_temp := 35;
     shower_connected_to_pool_system := false;
     absorptance := 0.60; wind_factor := 0.75;
     hp_capacity_kw := 100; boiler_capacity_kw := 200; hp_cop_nominal := 4.6;
     control_mode := control_mode |}.

(** The pool that is open from 10:00 to 20:00 every day. *)
Definition daily_system (control_mode : string) : System :=
  {| config := scenario_config control_mode;
     scheduler := SpecScheduler.make (fun _ => [daily_period]);
     q_pool_W_m2 := 1.51;
     tunnel_df := None |}.

(** A weather row of the constant weather: air 5 C, wind 3 m/s,
    humidity 70 %, no sun. *)
Definition constant_row (date : Date) (hour : Z) : WeatherRow :=
  {| timestamp := mkTimestamp date hour;
     temperature := 5; wind_speed := 3; humidity := Some 70; ghi := Some 0 |}.

Definition hours_of (date : Date) (hours : list Z) : list WeatherRow :=
  List.map (constant_row date) hours.

(** A sunny summer noon: air 25 C, light wind, 900 W/m2. *)
Definition sunny_row (date : Date) (hour : Z) : WeatherRow :=
  {| timestamp := mkTimestamp date hour;
     temperature := 25; wind_speed := 0.5; humidity := Some 60; ghi := Some 900 |}.

(** A shallow pool: 80 m2 and 100 m3, so that the thermal mass rate
    (about 116 kWh/K) is below 150. *)
Definition shallow_config : Config :=
  {| area_m2 := 80; volume_m3 := 100;
     target_temp := 28.0; min_temp := 26.0; max_temp := 29.0;
     activity_factor := 1.0; cover_enabled := true;
     cover_u_value_w_m2_k := 5.0; cover_solar_transmittance := 0.10;
     nw_enabled := true; bathers_per_day := 200;
     refill_liters_per_bather := 30; refill_cold_water_temp := 5;
     shower_liters_per_bather := 60; shower_target_temp := 40;
     shower_hot_water_temp := 70; shower_hp_max_temp := 35;
     shower_connected_to_pool_system := false;
     absorptance := 0.60; wind_factor := 0.75;
     hp_capacity_kw := 100; boiler_capacity_kw := 200; hp_cop_nominal := 4.6;
     control_mode := "predictive" |}.

Definition shallow_system : System :=
  {| config := shallow_config;
     scheduler := SpecScheduler.make (fun _ => [daily_period]);
     q_pool_W_m2 := 1.51;
     tunnel_df := None |}.

(** A week with a closed Saturday: open from 10:00 to 23:00 on the other
    days. *)
Definition late_period : Period :=
  {| p_from := 10; p_to := 23; p_target_temp := 28;
     p_min_temp := None; p_max_temp := None |}.

Definition closed_saturday (date : Date) : list Period :=
  if (weekday date =? 5)%Z then [] else [late_period].

(** The scenario pool with a heat pump of 20 kW. *)
Definition small_hp_config : Config :=
  {| area_m2 := 80; volume_m3 := 160;
     target_temp := 28.0; min_temp := 26.0; max_temp := 29.0;
     activity_factor := 1.0; cover_enabled := true;
     cover_u_value_w_m2_k := 5.0; cover_solar_transmittance := 0.10;
     nw_enabled := true; bathers_per_day := 200;
     refill_liters_per_bather := 30; refill_cold_water_temp := 5;
     shower_liters_per_bather := 60; shower_target_temp := 40;
     shower_hot_water_temp := 70; shower_hp_max_temp := 35;
     shower_connected_to_pool_system := false;
     absorptance := 0.60; wind_factor := 0.75;
     hp_capacity_kw := 20; boiler_capacity_kw := 200; hp_cop_nominal := 4.6;
     control_mode := "predictive" |}.

Definition weekend_system : System :=
  {| config := small_hp_config;
     scheduler := SpecScheduler.make closed_saturday;
     q_pool_W_m2 := 1.51;
     tunnel_df := None |}.

(** A cold, windy night hour: air -15 C, wind 8 m/s. *)
Definition cold_row (date : Date) (hour : Z) : WeatherRow :=
  {| timestamp := mkTimestamp date hour;
     temperature := -15; wind_speed := 8; humidity := Some 80; ghi := Some 0 |}.

(** Friday 19 January 2024 at 23:00 (the pool closes) and Saturday at
    00:00. *)
Definition friday_night : list WeatherRow :=
  [constant_row (mkDate 2024 1 19) 23; cold_row (mkDate 2024 1 20) 0].

(** Monday 15 January 2024: the ten rows of the open window. *)
Definition open_window : list WeatherRow :=
  hours_of (mkDate 2024 1 15) [10; 11; 12; 13; 14; 15; 16; 17; 18; 19]%Z.

(** The scenario pool at 10:00 with the water at 28.5 C. *)
Definition warm_opening : result (HourRecord * Q * PlannerState) :=
  Eval vm_compute in
    simulate_hour Approx.exp Approx.pow_0695 (daily_system "predictive")
                  initial_state 0 28.5 open_window
                  (constant_row (mkDate 2024 1 15) 10).

(** The two hours of [friday_night], from the initial state. *)
Definition friday_close : result (HourRecord * Q * PlannerState) :=
  Eval vm_compute in
    simulate_hour Approx.exp Approx.pow_0695 weekend_system initial_state 0
                  (target_temp (config weekend_system)) friday_night
                  (constant_row (mkDate 2024 1 19) 23).

Definition saturday_midnight : result (HourRecord * Q * PlannerState) :=
  Eval vm_compute in
    match friday_close with
    | Ok (_, T1, st1) =>
        simulate_hour Approx.exp Approx.pow_0695 weekend_system st1 1 T1
                      friday_night (cold_row (mkDate 2024 1 20) 0)
    | Raise e => Raise e
    end.

(** A sunny noon in reactive mode, the water at target. *)
Definition sunny_noon : result (HourRecord * Q * PlannerState) :=
  Eval vm_compute in
    simulate_hour Approx.exp Approx.pow_0695 (daily_system "reactive")
                  initial_state 0 28 [sunny_row (mkDate 2024 7 1) 12]
                  (sunny_row (mkDate 2024 7 1) 12).

End Scenario.

(** ** Statements about the controller *)

Module ControlSpec.
Import Calendar Simulator.
Local Open Scope Q_scope.

Section Statements.

Variable self : System.

(** The dispatch respects both capacities. *)
Definition within_capacity (c : Control) : Prop :=
  Q_hp c <= hp_capacity_kw (config self) /\
  Q_boiler c <= boiler_capacity_kw (config self).

(** The night powers of a closed plan lie between zero and the
    configured capacities. *)
Definition closed_plan_ok (plan : ClosedPlan) : Prop :=
  (0 <= night_hp_power plan <= hp_capacity_kw (config self)) /\
  (0 <= night_boiler_power plan <= boiler_capacity_kw (config self)).

Definition state_ok (st : PlannerState) : Prop :=
  forall plan, closed_plan st = Some plan -> closed_plan_ok plan.

(** The clamp of the simulation loop:
    [max(min_temp - 1, min(max_temp, T))]. *)
Definition clamp_temp (T : Q) : Q :=
  Py.max (min_temp (config self) - 1) (Py.min (max_temp (config self)) T).

Definition in_band (T : Q) : Prop :=
  min_temp (config self) - 1 <= T <= max_temp (config self).

(** The temperature recorded for an hour is the clamped energy balance
    of the temperature carried into it. *)
Fixpoint follows_balance (T : Q) (records : list HourRecord) : Prop :=
  match records with
  | [] => True
  | r :: rest =>
      water_temp r =
      clamp_temp
        (T + (Q_delivered (hr_control r) - Q_total (hr_demand r)) * 3600 * 1000
             / (volume_m3 (config self) * 1000 * 4186)) /\
      follows_balance (water_temp r) rest
  end.

(** The closed-period planner found the heat pump sufficient: the energy
    needed is at most the heat-pump capacity times the hours available. *)
Definition hp_sufficient (plan : ClosedPlan) : Prop :=
  energy_needed plan <= hp_capacity_kw (config self) * inject_Z (hours_to_open plan).

(** The plan never starts the boiler. *)
Definition boiler_off (plan : ClosedPlan) : Prop :=
  start_boiler_in plan = None /\ night_boiler_power plan = 0.

Definition state_planned (st : PlannerState) : Prop :=
  forall plan, closed_plan st = Some plan -> hp_sufficient plan -> boiler_off plan.

(** The dispatch of an open hour under an open plan without boiler:
    the heat pump runs at the planned rate (at most its capacity), the
    boiler is off, and the shortfall against the demand of the hour is
    reported as unmet. *)
Definition open_dispatch_of (plan : OpenPlan) (r : HourRecord) : Prop :=
  let c := hr_control r in
  Q_needed c = Q_total (hr_demand r) /\
  Q_hp c = Py.min (hp_rate_day plan) (hp_capacity_kw (config self)) /\
  Q_boiler c = 0 /\
  control_case c = 1%Z /\
  Q_unmet c = Py.max 0 (Q_needed c - (Q_hp c + Q_boiler c)) /\
  (Q_unmet c == 0 <-> Q_needed c <= Q_hp c).

End Statements.

(** The rows [rows] are the rows of [df] from position [idx] on. *)
Definition aligned (df : list WeatherRow) (idx : Z) (rows : list WeatherRow) : Prop :=
  forall i row, List.nth_error rows i = Some row -> iloc df (idx + Z.of_nat i) = Ok row.

(** A day with the single period 10:00 to 20:00, as the engine sees it
    through the methods of its scheduler. *)
Definition opens_10_to_20 (sched : Scheduler) (date : Date) : Prop :=
  get_periods sched date = Ok [Scenario.daily_period] /\
  get_period_duration sched Scenario.daily_period = Ok 10%Z /\
  (exists o c,
      get_daily_transitions sched date = Ok [o; c] /\
      t_time o = 10%Z /\ t_type o = TOpen /\
      t_time c = 20%Z /\ t_type c = TClose) /\
  (forall hour,
      (10 <= hour < 20)%Z ->
      get_current_period_info sched (mkTimestamp date hour) [Scenario.daily_period]
      = Ok (Some Scenario.daily_period)).

End ControlSpec.

(** ** Statements about the schedule resolver *)

Module SchedulerProps.
Import Calendar PoolSchedulerDB SchedulerSpec.

(** The order of two entries by their sort key. *)
Definition key_le {A : Type} (key : A -> Z) (a b : A) : Prop := key a <= key b.

(** The entries of a list that carry the key [k], in their order. *)
Definition with_key {A : Type} (key : A -> Z) (k : Z) (l : list A) : list A :=
  List.filter (fun a => key a =? k) l.

(** The number of clock hours [0 .. 23] inside a period. *)
Definition hours_contained (p : Period) : Z :=
  Py.len (List.filter (period_contains p) (Py.range 24)).

Definition duration_matches (from to : Z) : bool :=
  let p := mkPeriod from to 0 None None in
  (get_period_duration p =? hours_contained p) &&
  ((24 <=? from) || ((1 <=? get_period_duration p) && (get_period_duration p <=? 24))).

(** The fallback computation of Easter for the years [lo .. lo + n - 1]
    gives a Sunday. *)
Definition easter_sundays (lo n : Z) : bool :=
  List.forallb
    (fun k => weekday (_get_easter_date (example_scheduler true) (lo + k)) =? 6)
    (Py.range n).

(** Every name that an exception day or a week pattern refers to is the
    key of a day schedule, and there is at least one day schedule. *)
Definition well_formed (self : t) : Prop :=
  schedules self <> [] /\
  (forall exc, In exc (exception_days self) ->
     exists name, day_schedule_name exc = Some name /\
                  is_Some (lookup_schedule self name)) /\
  (forall id ws dow name,
     week_schedules self !! id = Some ws ->
     ws_days ws !! dow = Some (Some name) ->
     name <> EmptyString ->
     is_Some (lookup_schedule self name)).

(** The offsets [a + 1 .. a + n]. *)
Definition offsets_from (a n : nat) : list Z :=
  List.map (fun k => k + 1) (List.map Z.of_nat (List.seq a n)).

End SchedulerProps.

(** * Properties of schedule resolution *)

Module SchedulerFacts.
Import Calendar PoolSchedulerDB SchedulerSpec.

Lemma tuple_le_iff (a b : Z * Z) : tuple_le a b = true <-> md_le a b.
Proof.
  unfold tuple_le, md_le.
  destruct (Z.eqb_spec (fst a) (fst b)) as [E | E]; simpl.
  - rewrite Z.leb_le. lia.
  - rewrite Z.ltb_lt. lia.
Qed.

Lemma md_le_total (a b : Z * Z) : md_le a b \/ md_le b a.
Proof. unfold md_le. lia. Qed.

Lemma recurring_window_iff (date : Date) (r : DateRange) :
  is_recurring r = true ->
  _date_in_range date r = true <->
  in_window (start_month r, start_day r) (end_month r, end_day r)
            (month date, day date).
Proof.
  intros Hrec. unfold _date_in_range, in_window, tuple_ge. rewrite Hrec.
  destruct (tuple_le (start_month r, start_day r) (end_month r, end_day r)) eqn:E.
  - apply tuple_le_iff in E.
    rewrite andb_true_iff, !tuple_le_iff. tauto.
  - assert (N : ~ md_le (start_month r, start_day r) (end_month r, end_day r)).
    { intros H. apply tuple_le_iff in H. congruence. }
    rewrite orb_true_iff, !tuple_le_iff. tauto.
Qed.

(** C4.  For a recurring date-range program the membership test holds
    exactly when the [(month, day)] of the date lies in the window: between
    start and end when start <= end, and at or after start or at or before
    end when the window crosses the year.  A program from 20 December to
    5 January matches 25 December and 2 January of every year and does not
    match 10 January. *)
Theorem date_in_range_recurring (r : DateRange) :
  is_recurring r = true ->
  (forall date,
      _date_in_range date r = true <->
      in_window (start_month r, start_day r) (end_month r, end_day r)
                (month date, day date)) /\
  ((start_month r, start_day r) = (12, 20) ->
   (end_month r, end_day r) = (1, 5) ->
   forall y,
     _date_in_range (mkDate y 12 25) r = true /\
     _date_in_range (mkDate y 1 2) r = true /\
     _date_in_range (mkDate y 1 10) r = false).
Proof.
  intros Hrec. split.
  - intros date. now apply recurring_window_iff.
  - intros Hs He y. injection Hs as Hsm Hsd. injection He as Hem Hed.
    unfold _date_in_range. rewrite Hrec, Hsm, Hsd, Hem, Hed. now cbn.
Qed.

Lemma date_in_range_recurring_witness :
  is_recurring (example_program true) = true /\
  _date_in_range (mkDate 2024 12 25) (example_program true) = true /\
  _date_in_range (mkDate 2025 1 2) (example_program true) = true /\
  _date_in_range (mkDate 2025 1 10) (example_program true) = false.
Proof.
  split; [reflexivity |].
  pose proof (date_in_range_recurring (example_program true) eq_refl) as [_ H].
  specialize (H eq_refl eq_refl).
  destruct (H 2024) as [H1 _]. destruct (H 2025) as [_ [H2 H3]].
  auto.
Defined.

Lemma check_date_ranges_app (self : t) (date : Date) (l1 l2 : list DateRange) :
  check_date_ranges self date (l1 ++ l2) =
  match check_date_ranges self date l1 with
  | Some name => Some name
  | None => check_date_ranges self date l2
  end.
Proof.
  induction l1 as [| r l1 IH]; simpl; [reflexivity |].
  destruct (_date_in_range date r); [| exact IH].
  destruct (week_schedules self !! week_schedule_id r) as [ws |]; [| exact IH].
  destruct (truthy_str (week_lookup ws date)) eqn:E; [| exact IH].
  destruct (week_lookup ws date); [reflexivity | discriminate].
Qed.

Lemma check_date_ranges_self (self : t) (date : Date) (l l' : list DateRange) :
  check_date_ranges (with_date_ranges self l') date l = check_date_ranges self date l.
Proof. induction l as [| r l IH]; simpl; [reflexivity | now rewrite IH]. Qed.

(** C10.  A date-range program that is not recurring matches no date, and
    removing it from the configured programs changes the schedule of no
    date. *)
Theorem non_recurring_never_matches (r : DateRange) :
  is_recurring r = false ->
  (forall date, _date_in_range date r = false) /\
  (forall self l1 l2 date,
      date_ranges self = l1 ++ r :: l2 ->
      get_schedule_for_date self date =
      get_schedule_for_date (with_date_ranges self (l1 ++ l2)) date /\
      get_periods self date =
      get_periods (with_date_ranges self (l1 ++ l2)) date).
Proof.
  intros Hrec.
  assert (Hno : forall date, _date_in_range date r = false).
  { intros date. unfold _date_in_range. now rewrite Hrec. }
  split; [exact Hno |].
  intros self l1 l2 date Hl.
  assert (Hs : get_schedule_for_date self date =
               get_schedule_for_date (with_date_ranges self (l1 ++ l2)) date).
  { unfold get_schedule_for_date. rewrite Hl.
    change (_check_exception_days (with_date_ranges self (l1 ++ l2)) date)
      with (_check_exception_days self date).
    destruct (_check_exception_days self date); [reflexivity |].
    cbn [date_ranges with_date_ranges].
    rewrite check_date_ranges_self, !check_date_ranges_app.
    cbn [check_date_ranges]. rewrite Hno. reflexivity. }
  split; [exact Hs |].
  unfold get_periods. rewrite <- Hs. reflexivity.
Qed.

Lemma non_recurring_never_matches_witness :
  is_recurring (example_program false) = false /\
  _date_in_range (mkDate 2024 12 24) (example_program false) = false /\
  get_schedule_for_date (example_scheduler false) (mkDate 2024 12 24) =
  get_schedule_for_date
    (with_date_ranges (example_scheduler false) ([] ++ [])) (mkDate 2024 12 24).
Proof.
  split; [reflexivity |].
  pose proof (non_recurring_never_matches (example_program false) eq_refl) as [H1 H2].
  split; [apply H1 |].
  apply (H2 (example_scheduler false) [] [] (mkDate 2024 12 24) eq_refl).
Defined.

Lemma find_first {A : Type} (f : A -> bool) (l : list A) (x : A) :
  List.find f l = Some x ->
  exists pre post,
    l = pre ++ x :: post /\ Forall (fun a => f a = false) pre /\ f x = true.
Proof.
  induction l as [| a l IH]; simpl; [discriminate |].
  destruct (f a) eqn:E.
  - intros [= <-]. exists [], l. auto.
  - intros H. destruct (IH H) as (pre & post & -> & Hpre & Hx).
    exists (a :: pre), post. auto.
Qed.

Lemma find_is_some {A : Type} (f : A -> bool) (l : list A) (x : A) :
  In x l -> f x = true -> exists y, List.find f l = Some y.
Proof.
  intros Hin Hx. destruct (List.find f l) as [y |] eqn:E; [eauto |].
  now rewrite (find_none f l E x Hin) in Hx.
Qed.

Lemma find_is_none {A : Type} (f : A -> bool) (l : list A) :
  (forall x, In x l -> f x = false) -> List.find f l = None.
Proof.
  intros H. destruct (List.find f l) as [y |] eqn:E; [| reflexivity].
  apply find_some in E as [Hin Hy]. now rewrite (H y Hin) in Hy.
Qed.

Lemma first_has_top_priority (pre post : list ExceptionDay) (first exc : ExceptionDay)
      (f : ExceptionDay -> bool) :
  by_priority (pre ++ first :: post) ->
  Forall (fun e => f e = false) pre ->
  In exc (pre ++ first :: post) ->
  f exc = true ->
  exc_priority exc <= exc_priority first.
Proof.
  intros Hs Hpre Hin Hf.
  apply in_app_or in Hin as [Hin | [<- | Hin]].
  - rewrite List.Forall_forall in Hpre. rewrite (Hpre exc Hin) in Hf. discriminate Hf.
  - lia.
  - unfold by_priority in Hs. induction pre as [| a pre IH]; cbn in Hs.
    + apply StronglySorted_inv in Hs as [_ Hall].
      rewrite List.Forall_forall in Hall. now apply Hall.
    + apply StronglySorted_inv in Hs as [Hs _]. apply IH; [exact Hs |].
      now apply Forall_inv_tail in Hpre.
Qed.

(** C3 (amended).  On a date inside a date-range program [r]: if some
    configured exception day matches the date, the resolved schedule is
    the schedule name of the first matching exception in list order,
    whatever the programs say; when the list is in descending order of
    priority, as the loader's query orders it, no matching exception has a
    higher priority than that one.  If no exception matches, no program
    before [r] resolves, and the week pattern of [r] exists and has a
    non-empty entry for the weekday of the date, the schedule is that
    entry. *)
Theorem exception_day_wins (self : t) (date : Date)
        (r : DateRange) (l1 l2 : list DateRange) :
  date_ranges self = l1 ++ r :: l2 ->
  _date_in_range date r = true ->
  (forall exc,
      In exc (exception_days self) ->
      exception_matches self date exc = true ->
      exists first pre post,
        exception_days self = pre ++ first :: post /\
        Forall (fun e => exception_matches self date e = false) pre /\
        exception_matches self date first = true /\
        _check_exception_days self date = Some first /\
        get_schedule_for_date self date = Ok (day_schedule_name first) /\
        (by_priority (exception_days self) ->
         exc_priority exc <= exc_priority first)) /\
  ((forall exc, In exc (exception_days self) ->
                exception_matches self date exc = false) ->
   check_date_ranges self date l1 = None ->
   forall week_schedule name,
     week_schedules self !! week_schedule_id r = Some week_schedule ->
     week_lookup week_schedule date = Some name ->
     name <> EmptyString ->
     get_schedule_for_date self date = Ok (Some name)).
Proof.
  intros Hl Hin. split.
  - intros exc Hexc Hm.
    destruct (find_is_some _ _ _ Hexc Hm) as [first Hf].
    destruct (find_first _ _ _ Hf) as (pre & post & Heq & Hpre & Hfirst).
    exists first, pre, post. repeat split; try assumption.
    + unfold get_schedule_for_date, _check_exception_days. now rewrite Hf.
    + intros Hs. rewrite Heq in Hs, Hexc.
      exact (first_has_top_priority pre post first exc _ Hs Hpre Hexc Hm).
  - intros Hnone Hl1 ws name Hws Hname Hne.
    unfold get_schedule_for_date, _check_exception_days.
    rewrite (find_is_none _ _ Hnone), Hl, check_date_ranges_app, Hl1.
    cbn [check_date_ranges]. rewrite Hin, Hws, Hname.
    unfold truthy_str. destruct (String.eqb_spec name EmptyString); [contradiction |].
    reflexivity.
Qed.

Lemma exception_day_wins_witness :
  (date_ranges (example_scheduler true) = [] ++ example_program true :: [] /\
   _date_in_range (mkDate 2024 12 25) (example_program true) = true /\
   _date_in_range (mkDate 2024 12 24) (example_program true) = true) /\
  get_schedule_for_date (example_scheduler true) (mkDate 2024 12 25)
    = Ok (Some "Closed"%string) /\
  get_schedule_for_date (example_scheduler true) (mkDate 2024 12 24)
    = Ok (Some "Normal"%string).
Proof.
  split; [repeat split |]. split.
  - destruct (exception_day_wins (example_scheduler true) (mkDate 2024 12 25)
                (example_program true) [] [] eq_refl eq_refl) as [H _].
    destruct (H example_christmas (or_introl eq_refl) eq_refl)
      as (first & pre & post & _ & _ & _ & Hc & Hs & _).
    rewrite Hs. vm_compute in Hc. injection Hc as <-. reflexivity.
  - destruct (exception_day_wins (example_scheduler true) (mkDate 2024 12 24)
                (example_program true) [] [] eq_refl eq_refl) as [_ H].
    apply (H ltac:(intros exc [<- | []]; reflexivity) eq_refl
             example_week "Normal"%string).
    + reflexivity.
    + vm_compute. reflexivity.
    + discriminate.
Defined.

(** C3, as stated, fails in its last part.  Tuesday 2 July 2024 lies
    inside the "Summer" program (25 June to 15 August) and matches no
    exception day, but the week pattern of the program has no entry for
    Tuesday: the loop over the programs falls through and the date
    resolves to "Normal", the entry of the template's base week, which is
    not in the program's pattern at all. *)
Lemma program_date_resolved_by_base_week :
  let date := mkDate 2024 7 2 in
  date_ranges summer_scheduler = [summer_program] /\
  _date_in_range date summer_program = true /\
  _check_exception_days summer_scheduler date = None /\
  week_schedules summer_scheduler !! week_schedule_id summer_program = Some summer_week /\
  week_lookup summer_week date = None /\
  (forall dow name, ws_days summer_week !! dow = Some (Some name) ->
                    name = "Summer"%string) /\
  week_lookup base_week date = Some "Normal"%string /\
  get_schedule_for_date summer_scheduler date = Ok (Some "Normal"%string).
Proof.
  intros date. repeat split; try reflexivity.
  intros dow name H. unfold summer_week in H. cbn [ws_days] in H.
  apply elem_of_list_to_map_2 in H.
  apply list_elem_of_In in H.
  destruct H as [[= _ <-] | [[= _ <-] | []]]; reflexivity.
Qed.

End SchedulerFacts.

(** * Properties of the thermal model, the planner and the loop *)

Module PyFacts.
Local Open Scope Q_scope.

Lemma leb_iff (a b : Q) : Py.leb a b = true <-> a <= b.
Proof. apply Qle_bool_iff. Qed.

Lemma ltb_iff (a b : Q) : Py.ltb a b = true <-> a < b.
Proof.
  unfold Py.ltb. rewrite negb_true_iff. split.
  - intros H. apply Qnot_le_lt. intros L. apply Qle_bool_iff in L. congruence.
  - intros H. destruct (Qle_bool b a) eqn:E; [| reflexivity].
    apply Qle_bool_iff in E. exfalso. lra.
Qed.

Lemma ltb_cases (a b : Q) :
  (Py.ltb a b = true /\ a < b) \/ (Py.ltb a b = false /\ b <= a).
Proof.
  destruct (Py.ltb a b) eqn:E.
  - left. split; [reflexivity | now apply ltb_iff].
  - right. split; [reflexivity |].
    apply Qnot_lt_le. intros L. apply ltb_iff in L. congruence.
Qed.

Lemma leb_cases (a b : Q) :
  (Py.leb a b = true /\ a <= b) \/ (Py.leb a b = false /\ b < a).
Proof.
  destruct (Py.leb a b) eqn:E.
  - left. split; [reflexivity | now apply leb_iff].
  - right. split; [reflexivity |].
    apply Qnot_le_lt. intros L. apply leb_iff in L. congruence.
Qed.

Lemma eqb_cases (a b : Q) :
  (Py.eqb a b = true /\ a == b) \/ (Py.eqb a b = false /\ ~ a == b).
Proof.
  unfold Py.eqb. destruct (Qeq_bool a b) eqn:E.
  - left. split; [reflexivity | now apply Qeq_bool_iff].
  - right. split; [reflexivity |]. now apply Qeq_bool_neq.
Qed.

(** Case analysis on the comparisons of the goal. *)
Ltac py_case :=
  match goal with
  | |- context [Py.ltb ?a ?b] =>
      let E := fresh "E" in let H := fresh "H" in
      destruct (ltb_cases a b) as [[E H] | [E H]]; rewrite E
  | |- context [Py.leb ?a ?b] =>
      let E := fresh "E" in let H := fresh "H" in
      destruct (leb_cases a b) as [[E H] | [E H]]; rewrite E
  | |- context [Py.eqb ?a ?b] =>
      let E := fresh "E" in let H := fresh "H" in
      destruct (eqb_cases a b) as [[E H] | [E H]]; rewrite E
  end.

Ltac py_unfold := unfold Py.min, Py.max, Py.abs, Py.geb, Py.gtb in *.

(** Unfolding of the monadic bind of [result]. *)
Ltac rsimpl := unfold mbind, result_bind, mret, result_ret in *; cbn [rbind] in *.

Lemma min_le_l (a b : Q) : Py.min a b <= a.
Proof. py_unfold. py_case; lra. Qed.

Lemma min_le_r (a b : Q) : Py.min a b <= b.
Proof. py_unfold. py_case; lra. Qed.

Lemma min_glb (a b c : Q) : c <= a -> c <= b -> c <= Py.min a b.
Proof. intros. py_unfold. py_case; lra. Qed.

Lemma max_le_l (a b : Q) : a <= Py.max a b.
Proof. py_unfold. py_case; lra. Qed.

Lemma max_le_r (a b : Q) : b <= Py.max a b.
Proof. py_unfold. py_case; lra. Qed.

Lemma max_lub (a b c : Q) : a <= c -> b <= c -> Py.max a b <= c.
Proof. intros. py_unfold. py_case; lra. Qed.

Lemma div_ok (a b : Q) : ~ b == 0 -> Py.div a b = Ok (a / b).
Proof.
  intros H. unfold Py.div.
  destruct (eqb_cases b 0) as [[E H'] | [E _]]; [contradiction |].
  now rewrite E.
Qed.

Lemma div_inv (a b q : Q) : Py.div a b = Ok q -> ~ b == 0 /\ q = a / b.
Proof.
  unfold Py.div.
  destruct (eqb_cases b 0) as [[E H] | [E H]]; rewrite E; [discriminate |].
  intros [= <-]. auto.
Qed.

End PyFacts.

Module ThermalFacts.
Import Simulator PyFacts.
Local Open Scope Q_scope.

Lemma clamp_delta_P_magnitude (d : Q) : 1 <= Py.abs (clamp_delta_P d).
Proof.
  unfold clamp_delta_P.
  destruct (ltb_cases (Py.abs d) 1.0) as [[E H] | [E H]]; rewrite E.
  - destruct (leb_cases 0 d) as [[E' H'] | [E' H']]; rewrite E'; now vm_compute.
  - lra.
Qed.

Lemma clamp_delta_P_nonzero (d : Q) : ~ clamp_delta_P d == 0.
Proof.
  pose proof (clamp_delta_P_magnitude d) as H. intros Z.
  unfold Py.abs in H.
  destruct (ltb_cases (clamp_delta_P d) 0) as [[E L] | [E L]]; rewrite E in H; lra.
Qed.

(** C7.  In the convection computation the divisor of the Bowen ratio is
    the vapour-pressure difference, replaced by +1.0 (difference >= 0) or
    -1.0 (difference < 0) whenever its magnitude is below 1.0 Pa; its
    magnitude is therefore never below 1.0, the division never raises, and
    the loss returned is [max(0, Bo * Q_evap)]. *)
Theorem convection_divisor_clamped (T_water T_air Q_evap P_water P_air : Q) :
  let diff := P_water - P_air in
  let delta_P := clamp_delta_P diff in
  1 <= Py.abs delta_P /\
  (Py.abs diff < 1 -> 0 <= diff -> delta_P = 1.0) /\
  (Py.abs diff < 1 -> diff < 0 -> delta_P = -1.0) /\
  (1 <= Py.abs diff -> delta_P = diff) /\
  exists Bo,
    bowen_ratio T_water T_air P_water P_air = Ok Bo /\
    Bo = (1005 * 101325) / (0.622 * 2454000) * (T_water - T_air) / delta_P /\
    calculate_convection T_water T_air Q_evap P_water P_air
      = Ok (Py.max 0 (Bo * Q_evap)) /\
    0 <= Py.max 0 (Bo * Q_evap).
Proof.
  intros diff delta_P.
  split; [apply clamp_delta_P_magnitude |].
  split; [| split; [| split]].
  - intros Ha Hd. unfold delta_P, clamp_delta_P.
    destruct (ltb_cases (Py.abs diff) 1.0) as [[E H] | [E H]]; rewrite E; [| lra].
    destruct (leb_cases 0 diff) as [[E' H'] | [E' H']]; rewrite E'; [reflexivity | lra].
  - intros Ha Hd. unfold delta_P, clamp_delta_P.
    destruct (ltb_cases (Py.abs diff) 1.0) as [[E H] | [E H]]; rewrite E; [| lra].
    destruct (leb_cases 0 diff) as [[E' H'] | [E' H']]; rewrite E'; [lra | reflexivity].
  - intros Ha. unfold delta_P, clamp_delta_P.
    destruct (ltb_cases (Py.abs diff) 1.0) as [[E H] | [E H]]; rewrite E; [lra | reflexivity].
  - eexists. unfold calculate_convection, bowen_ratio. rsimpl.
    rewrite (div_ok (1005 * 101325) (0.622 * 2454000)) by (now vm_compute).
    rsimpl.
    rewrite (div_ok _ (clamp_delta_P (P_water - P_air)))
      by apply clamp_delta_P_nonzero.
    rsimpl. repeat split. apply max_le_l.
Qed.

End ThermalFacts.

Module ControlFacts.
Import Calendar Simulator PyFacts.
Local Open Scope Q_scope.

(** Inversion of a successful monadic computation, one step at a time. *)
Ltac inv_step H :=
  match type of H with
  | Ok _ = Ok _ => injection H as H; try subst
  | Raise _ = Ok _ => discriminate H
  | rbind ?m _ = Ok _ =>
      let E := fresh "E" in
      destruct m eqn:E; cbn [rbind] in H; [| discriminate H]
  | context [match ?x with (_, _) => _ end] => destruct x
  end.

Ltac inv_ok H := rsimpl; repeat inv_step H.

(** Case analysis on the first computation of a bind in [H]. *)
Ltac bind_case H x E :=
  match type of H with
  | rbind ?c _ = _ => destruct c as [x |] eqn:E; cbn [rbind] in H; [| discriminate H]
  end.

Lemma activation_factor (hours_since_plan start_in : Q) :
  0 <= snd (activation hours_since_plan start_in) <= 1.
Proof.
  unfold activation, Py.floor, Py.geb.
  pose proof (Qfloor_le start_in). pose proof (Qlt_floor start_in) as Hlt.
  rewrite inject_Z_plus in Hlt. change (inject_Z 1) with 1 in Hlt.
  repeat py_case; cbn [snd]; split; lra.
Qed.

Section Engine.

Variable np_exp : Q -> Q.
Variable pow_0695 : Q -> Q.
Variable self : System.

Abbreviation hp_capacity := (hp_capacity_kw (config self)).
Abbreviation boiler_capacity := (boiler_capacity_kw (config self)).

Abbreviation within_capacity := (ControlSpec.within_capacity self).
Abbreviation closed_plan_ok := (ControlSpec.closed_plan_ok self).
Abbreviation state_ok := (ControlSpec.state_ok self).

Lemma thermostat_within_capacity (Q_demand T_water cop : Q) (label : string) :
  within_capacity (thermostat self Q_demand T_water cop label).
Proof. split; cbn; apply min_le_r. Qed.

Lemma night_dispatch_inv (total h n s : Q) (sb : option Q) (nh nb : Q) :
  night_dispatch self total h n = Ok (s, sb, nh, nb) ->
  nh = hp_capacity /\
  ((total <= hp_capacity * h /\ sb = None /\ nb = 0) \/
   (hp_capacity * h < total /\ (exists x, sb = Some x) /\ nb = boiler_capacity)).
Proof.
  unfold night_dispatch.
  py_case; intros Hd.
  - inv_ok Hd. split; [reflexivity | left; auto].
  - inv_ok Hd. split; [reflexivity | right; eauto].
Qed.

Lemma plan_closed_period_inv (idx : Z) (T : Q) (df : list WeatherRow)
      (ts : Timestamp) (plan : ClosedPlan) :
  plan_closed_period np_exp pow_0695 self idx T df ts = Ok (Some plan) ->
  exists n,
    night_dispatch self (energy_needed plan) (inject_Z (hours_to_open plan)) n
    = Ok (start_hp_in plan, start_boiler_in plan,
          night_hp_power plan, night_boiler_power plan).
Proof.
  unfold plan_closed_period. intros H. inv_ok H.
  match type of H with
  | match ?o with _ => _ end = _ => destruct o as [next |]; [| discriminate H]
  end.
  inv_ok H. cbn. eauto.
Qed.

Section NonNegativeCapacities.

Hypothesis hp_capacity_nonneg : 0 <= hp_capacity.
Hypothesis boiler_capacity_nonneg : 0 <= boiler_capacity.

Lemma plan_closed_period_ok (idx : Z) (T : Q) (df : list WeatherRow)
      (ts : Timestamp) (plan : ClosedPlan) :
  plan_closed_period np_exp pow_0695 self idx T df ts = Ok (Some plan) ->
  closed_plan_ok plan.
Proof.
  intros H. destruct (plan_closed_period_inv _ _ _ _ _ H) as [n Hn].
  apply night_dispatch_inv in Hn as [Hhp [(_ & _ & Hb) | (_ & _ & Hb)]];
    unfold ControlSpec.closed_plan_ok; rewrite Hhp, Hb; lra.
Qed.

Lemma scaled_power_le (p f cap : Q) :
  0 <= p <= cap -> 0 <= f <= 1 -> p * f <= cap.
Proof. intros [H0 H1] [F0 F1]. nra. Qed.

Lemma closed_dispatch_capped (plan : ClosedPlan) (Q_demand T_water : Q)
      (ts : Timestamp) (periods : list Period)
      (qn qhp qb : Q) (m : string) (p : bool) :
  closed_plan_ok plan ->
  closed_dispatch self plan Q_demand T_water ts periods = Ok (qn, qhp, qb, m, p) ->
  qhp <= hp_capacity /\ qb <= boiler_capacity.
Proof.
  intros [Hhp Hb] H. unfold closed_dispatch in H. rsimpl.
  destruct (plan_time_of self ts periods) as [plan_time |]; cbn [rbind] in H;
    [| discriminate H].
  pose proof (activation_factor (hours_between ts plan_time) (start_hp_in plan)) as Fh.
  destruct (activation (hours_between ts plan_time) (start_hp_in plan))
    as [hp_active power_factor]. cbn [snd] in Fh.
  assert (Fb : exists boiler_active boiler_power_factor,
             match start_boiler_in plan with
             | Some start_boiler_in =>
                 activation (hours_between ts plan_time) start_boiler_in
             | None => (false, 0.0)
             end = (boiler_active, boiler_power_factor) /\
             0 <= boiler_power_factor <= 1).
  { destruct (start_boiler_in plan) as [sb |].
    - pose proof (activation_factor (hours_between ts plan_time) sb) as F.
      destruct (activation (hours_between ts plan_time) sb) as [b f]. eauto.
    - exists false, 0.0. split; [reflexivity | lra]. }
  destruct Fb as (boiler_active & boiler_power_factor & Eb & Fb).
  rewrite Eb in H.
  match type of H with
  | rbind ?c _ = _ => destruct c as [[[Q_needed preheat] mode] |];
                      cbn [rbind] in H; [| discriminate H]
  end.
  destruct hp_active, boiler_active; injection H as <- <- <- <- <-; split;
    try apply min_le_r; try assumption;
    try (eapply Qle_trans; [apply min_le_r | now apply scaled_power_le]).
Qed.

Lemma apply_transitions_ok (transitions : list Transition) (st st' : PlannerState)
      (idx : Z) (T : Q) (df : list WeatherRow) (ts : Timestamp)
      (periods : list Period) :
  state_ok st ->
  apply_transitions np_exp pow_0695 self st transitions idx T df ts periods = Ok st' ->
  state_ok st'.
Proof.
  revert st. induction transitions as [| tr rest IH]; intros st Hst H.
  - cbn in H. now injection H as <-.
  - cbn [apply_transitions] in H. rsimpl.
    match type of H with
    | rbind ?c _ = _ => destruct c as [st1 |] eqn:E; cbn [rbind] in H;
                        [| discriminate H]
    end.
    apply (IH st1); [| exact H].
    destruct (ts_hour ts =? t_time tr)%Z; [| now injection E as <-].
    destruct (t_type tr).
    + destruct (find _ periods); [| now injection E as <-].
      inv_ok E. exact Hst.
    + inv_ok E. intros plan Hp. cbn in Hp. subst.
      eapply plan_closed_period_ok; eassumption.
Qed.

Lemma execute_control_ok (st st' : PlannerState) (idx : Z) (T : Q)
      (df : list WeatherRow) (ts : Timestamp) (c : Control) :
  state_ok st ->
  execute_control np_exp pow_0695 self st idx T df ts = Ok (c, st') ->
  within_capacity c /\ state_ok st'.
Proof.
  intros Hst H. unfold execute_control in H. rsimpl.
  bind_case H row Erow. bind_case H demand Edemand.
  destruct (String.eqb (control_mode (config self)) "reactive").
  { injection H as <- <-. split; [apply thermostat_within_capacity | exact Hst]. }
  bind_case H periods Eperiods.
  destruct periods as [| period0 periods'].
  { injection H as <- <-. split; [apply thermostat_within_capacity | exact Hst]. }
  bind_case H transitions Etransitions.
  bind_case H st1 Est1.
  pose proof (apply_transitions_ok _ _ _ _ _ _ _ _ Hst Est1) as Hst1.
  bind_case H info Einfo.
  bind_case H res Eres.
  destruct res as [[[[[st2 Q_needed] Q_hp] Q_boiler] mode] preheat].
  injection H as <- <-.
  unfold ControlSpec.within_capacity. cbn [Simulator.Q_hp Simulator.Q_boiler].
  destruct info as [period |].
  - bind_case Eres plan Eplan. injection Eres as <- _ <- <- _ _.
    split; [split; apply min_le_r |].
    intros p Hp. cbn in Hp. now apply Hst1.
  - bind_case Eres closed Eclosed.
    assert (Hclosed : forall plan, closed = Some plan -> closed_plan_ok plan).
    { intros plan ->. destruct (closed_plan st1) as [plan1 |] eqn:E1.
      - injection Eclosed as <-. now apply Hst1.
      - eapply plan_closed_period_ok; eassumption. }
    destruct closed as [plan |].
    + bind_case Eres d Ed.
      destruct d as [[[[qn qhp] qb] m] p].
      injection Eres as <- _ <- <- _ _.
      split.
      * eapply closed_dispatch_capped; [| exact Ed]. now apply Hclosed.
      * intros p' Hp'. cbn in Hp'. now apply Hclosed.
    + injection Eres as <- _ <- <- _ _.
      split; [split; [apply min_le_r | exact boiler_capacity_nonneg] |].
      intros p' Hp'. discriminate Hp'.
Qed.

Lemma simulate_from_within_capacity (rows df : list WeatherRow)
      (st : PlannerState) (idx : Z) (T : Q) (records : list HourRecord) :
  state_ok st ->
  simulate_from np_exp pow_0695 self st idx T df rows = Ok records ->
  Forall (fun r => within_capacity (hr_control r)) records.
Proof.
  revert st idx T records.
  induction rows as [| row rest IH]; intros st idx T records Hst H.
  - cbn in H. injection H as <-. constructor.
  - cbn [simulate_from] in H. rsimpl.
    bind_case H hour Ehour. destruct hour as [[rec T'] st1].
    bind_case H results Eresults. injection H as <-.
    unfold simulate_hour in Ehour. rsimpl.
    bind_case Ehour cs Ecs. destruct cs as [control st2].
    bind_case Ehour demand Edemand. bind_case Ehour dT EdT.
    injection Ehour as <- <- <-.
    destruct (execute_control_ok _ _ _ _ _ _ _ Hst Ecs) as [Hc Hst2].
    constructor; [exact Hc |].
    eapply IH; eassumption.
Qed.


End NonNegativeCapacities.

Lemma simulate_hour_inv (st st' : PlannerState) (idx : Z) (T T' : Q)
      (df : list WeatherRow) (row : WeatherRow) (rec : HourRecord) :
  simulate_hour np_exp pow_0695 self st idx T df row = Ok (rec, T', st') ->
  execute_control np_exp pow_0695 self st idx T df (timestamp row)
    = Ok (hr_control rec, st') /\
  calculate_heat_demand np_exp pow_0695 self T row (timestamp row)
    = Ok (hr_demand rec) /\
  ~ volume_m3 (config self) * 1000 * 4186 == 0 /\
  T' = water_temp rec /\
  water_temp rec =
  ControlSpec.clamp_temp self
    (T + (Q_delivered (hr_control rec) - Q_total (hr_demand rec)) * 3600 * 1000
         / (volume_m3 (config self) * 1000 * 4186)).
Proof.
  intros H. unfold simulate_hour in H. rsimpl.
  bind_case H cs Ecs. destruct cs as [control st2].
  bind_case H demand Edemand. bind_case H dT EdT.
  apply div_inv in EdT as [Hvol ->].
  injection H as <- <- <-. cbn. auto.
Qed.

Lemma clamp_temp_in_band (T : Q) :
  min_temp (config self) - 1 <= max_temp (config self) ->
  ControlSpec.in_band self (ControlSpec.clamp_temp self T).
Proof.
  intros H. unfold ControlSpec.in_band, ControlSpec.clamp_temp. split.
  - apply max_le_l.
  - apply max_lub; [exact H | apply min_le_l].
Qed.

Lemma simulate_from_in_band (rows df : list WeatherRow)
      (st : PlannerState) (idx : Z) (T : Q) (records : list HourRecord) :
  min_temp (config self) - 1 <= max_temp (config self) ->
  simulate_from np_exp pow_0695 self st idx T df rows = Ok records ->
  ControlSpec.follows_balance self T records /\
  Forall (fun r => ControlSpec.in_band self (water_temp r)) records.
Proof.
  intros Hband. revert st idx T records.
  induction rows as [| row rest IH]; intros st idx T records H.
  - cbn in H. injection H as <-. split; constructor.
  - cbn [simulate_from] in H. rsimpl.
    bind_case H hour Ehour. destruct hour as [[rec T'] st1].
    bind_case H results Eresults. injection H as <-.
    apply simulate_hour_inv in Ehour as (_ & _ & _ & -> & Hrec).
    destruct (IH _ _ _ _ Eresults) as [Hf Hall].
    split; [split; assumption |].
    constructor; [| exact Hall].
    rewrite Hrec. now apply clamp_temp_in_band.
Qed.


Lemma heat_demand_total (T : Q) (row : WeatherRow) (ts : Timestamp) (d : Demand) :
  calculate_heat_demand np_exp pow_0695 self T row ts = Ok d ->
  Q_total d = Q_losses d + Q_pool_refill d + Q_shower_electric d - Q_solar d.
Proof.
  intros H. unfold calculate_heat_demand in H. rsimpl.
  bind_case H tunnel Et. bind_case H opened Eo.
  bind_case H evap Ee. destruct evap as [[evaporation P_water] P_air].
  bind_case H convection Ec. bind_case H cov Ecov.
  destruct cov;
    destruct (calculate_structural_losses self T tunnel) as [floor walls];
    bind_case H nw Enw; destruct nw as [[refill thermal] electric];
    injection H as <-; reflexivity.
Qed.

Lemma thermostat_negative_demand (Q_demand T cop : Q) (label : string) :
  target_temp (config self) <= T ->
  Q_demand < 0 ->
  let c := thermostat self Q_demand T cop label in
  Q_needed c = Q_demand /\
  Q_hp c = Py.min (Q_needed c) hp_capacity /\
  Q_hp c < 0 /\
  Q_delivered c < 0 /\
  (0 <= hp_capacity -> Q_hp c = Q_needed c).
Proof.
  intros HT Hd. unfold thermostat. cbn.
  destruct (ltb_cases T (target_temp (config self))) as [[E L] | [E L]]; [lra |].
  rewrite E. split; [reflexivity |]. split; [reflexivity |].
  pose proof (min_le_l Q_demand hp_capacity) as Hhp.
  pose proof (min_le_l (Q_demand - Py.min Q_demand hp_capacity) boiler_capacity) as Hb.
  split; [lra |]. split; [lra |].
  intros Hcap. unfold Py.min.
  destruct (ltb_cases hp_capacity Q_demand) as [[E' L'] | [E' L']]; [lra |].
  now rewrite E'.
Qed.

(** C9.  The heat-pump dispatch of the thermostat branches (reactive mode,
    and a day without periods in predictive mode) has no lower clamp at
    zero: with the water at or above target, [Q_needed] is the net demand
    [Q_losses + Q_pool_refill + Q_shower_electric - Q_solar] and
    [Q_hp = min(Q_needed, hp_capacity)]; whenever that demand is negative,
    [Q_hp] and [Q_delivered] are negative, and [Q_hp = Q_needed] for a
    non-negative capacity. *)
Theorem negative_demand_gives_negative_dispatch
        (st st' : PlannerState) (idx : Z) (T : Q) (df : list WeatherRow)
        (ts : Timestamp) (row : WeatherRow) (d : Demand) (c : Control) :
  iloc df idx = Ok row ->
  calculate_heat_demand np_exp pow_0695 self T row ts = Ok d ->
  (String.eqb (control_mode (config self)) "reactive" = true \/
   get_periods (scheduler self) (ts_date ts) = Ok []) ->
  execute_control np_exp pow_0695 self st idx T df ts = Ok (c, st') ->
  target_temp (config self) <= T ->
  Q_total d < 0 ->
  Q_total d = Q_losses d + Q_pool_refill d + Q_shower_electric d - Q_solar d /\
  Q_needed c = Q_total d /\
  Q_hp c = Py.min (Q_needed c) hp_capacity /\
  Q_hp c < 0 /\
  Q_delivered c < 0 /\
  (0 <= hp_capacity -> Q_hp c = Q_needed c).
Proof.
  intros Hrow Hd Hbranch H HT Hneg.
  split; [now apply (heat_demand_total T row ts) |].
  unfold execute_control in H. rsimpl.
  rewrite Hrow in H. cbn [rbind] in H. rewrite Hd in H. cbn [rbind] in H.
  destruct (String.eqb (control_mode (config self)) "reactive") eqn:Emode.
  - injection H as <- _. now apply thermostat_negative_demand.
  - destruct Hbranch as [Hb | Hb]; [discriminate Hb |].
    rewrite Hb in H. cbn [rbind] in H.
    injection H as <- _. now apply thermostat_negative_demand.
Qed.

Lemma plan_closed_period_classified (idx : Z) (T : Q) (df : list WeatherRow)
      (ts : Timestamp) (plan : ClosedPlan) :
  plan_closed_period np_exp pow_0695 self idx T df ts = Ok (Some plan) ->
  exists tn,
    classify_demand self (forecast_demand plan)
    = Ok (case plan, tn, day_hp_power plan, day_boiler_power plan) /\
    ((case plan =? 2)%Z = false -> target_night plan = tn).
Proof.
  intros H. unfold plan_closed_period in H. rsimpl.
  bind_case H periods Ep. bind_case H next Enext.
  destruct next as [next |]; [| discriminate H].
  bind_case H night_losses En. bind_case H demand1 Ed1. bind_case H avg1 Ea1.
  bind_case H cls1 Ec1. destruct cls1 as [[[case1 tn1] hp1] b1].
  bind_case H sim2 Es2. destruct sim2 as [demand2 T2].
  bind_case H avg2 Ea2.
  bind_case H cls2 Ec2. destruct cls2 as [[[case2 tn2] hp2] b2].
  bind_case H sim3 Es3. destruct sim3 as [demand3 T3].
  bind_case H avg3 Ea3. bind_case H tn3 Et3.
  bind_case H losses El. bind_case H losses' El'.
  bind_case H ne Ene. destruct ne as [total hours_hp].
  bind_case H nd End_. destruct nd as [[[s sb] nh] nb].
  injection H as <-. cbn.
  exists tn2. split; [exact Ec2 |].
  intros Hcase. rewrite Hcase in Et3. cbn in Et3. now injection Et3 as <-.
Qed.

(** C6.  With a heat pump of 100 kW and a boiler of 200 kW, a forecast
    average hourly demand of 250 kW that exceeds the heat-pump capacity
    plus the thermal-mass headroom is classified as case 3: overnight
    target [max_temp], day heat-pump power 100 kW (the capacity) and day
    boiler power 150 kW (the demand minus the capacity); a closed plan
    whose forecast demand is that value carries exactly these entries. *)
Theorem forecast_250_is_case_3 (avg_demand : Q) :
  hp_capacity == 100 ->
  boiler_capacity == 200 ->
  avg_demand == 250 ->
  hp_capacity + thermal_mass_rate self < avg_demand ->
  classify_demand self avg_demand
  = Ok (3%Z, max_temp (config self), hp_capacity, avg_demand - hp_capacity) /\
  hp_capacity == 100 /\
  avg_demand - hp_capacity == 150 /\
  (forall idx T df ts plan,
      plan_closed_period np_exp pow_0695 self idx T df ts = Ok (Some plan) ->
      forecast_demand plan = avg_demand ->
      case plan = 3%Z /\
      target_night plan = max_temp (config self) /\
      day_hp_power plan = hp_capacity /\
      day_boiler_power plan = avg_demand - hp_capacity).
Proof.
  intros Hhp Hb Havg Hmass.
  assert (Hc : classify_demand self avg_demand
               = Ok (3%Z, max_temp (config self), hp_capacity, avg_demand - hp_capacity)).
  { unfold classify_demand.
    destruct (leb_cases avg_demand hp_capacity) as [[E L] | [E L]]; [lra |]. rewrite E.
    destruct (leb_cases avg_demand (hp_capacity + thermal_mass_rate self))
      as [[E1 L1] | [E1 L1]]; [lra |]. rewrite E1.
    destruct (leb_cases avg_demand (hp_capacity + boiler_capacity))
      as [[E2 L2] | [E2 L2]]; [| lra]. rewrite E2. reflexivity. }
  split; [exact Hc |]. split; [exact Hhp |]. split; [lra |].
  intros idx T df ts plan Hplan Hf.
  destruct (plan_closed_period_classified _ _ _ _ _ Hplan) as (tn & Hcls & Htn).
  rewrite Hf, Hc in Hcls. injection Hcls as Hcase <- Hd Hbo.
  rewrite <- Hcase in Htn. repeat split; auto.
Qed.

Lemma plan_closed_period_boiler_off (idx : Z) (T : Q) (df : list WeatherRow)
      (ts : Timestamp) (plan : ClosedPlan) :
  plan_closed_period np_exp pow_0695 self idx T df ts = Ok (Some plan) ->
  ControlSpec.hp_sufficient self plan ->
  ControlSpec.boiler_off plan.
Proof.
  intros H Hs. destruct (plan_closed_period_inv _ _ _ _ _ H) as [n Hn].
  apply night_dispatch_inv in Hn as [_ [(_ & Hsb & Hb) | (Hlt & _ & _)]].
  - split; assumption.
  - unfold ControlSpec.hp_sufficient in Hs. lra.
Qed.

Lemma apply_transitions_planned (transitions : list Transition) (st st' : PlannerState)
      (idx : Z) (T : Q) (df : list WeatherRow) (ts : Timestamp)
      (periods : list Period) :
  ControlSpec.state_planned self st ->
  apply_transitions np_exp pow_0695 self st transitions idx T df ts periods = Ok st' ->
  ControlSpec.state_planned self st'.
Proof.
  revert st. induction transitions as [| tr rest IH]; intros st Hst H.
  - cbn in H. now injection H as <-.
  - cbn [apply_transitions] in H. rsimpl.
    bind_case H st1 E.
    apply (IH st1); [| exact H].
    destruct (ts_hour ts =? t_time tr)%Z; [| now injection E as <-].
    destruct (t_type tr).
    + destruct (find _ periods); [| now injection E as <-].
      inv_ok E. exact Hst.
    + inv_ok E. intros plan Hp. cbn in Hp. subst.
      eapply plan_closed_period_boiler_off; eassumption.
Qed.

Lemma apply_transitions_keeps_closed_plan (transitions : list Transition)
      (st st' : PlannerState) (idx : Z) (T : Q) (df : list WeatherRow)
      (ts : Timestamp) (periods : list Period) :
  (forall tr, In tr transitions -> t_time tr = ts_hour ts -> t_type tr = TOpen) ->
  apply_transitions np_exp pow_0695 self st transitions idx T df ts periods = Ok st' ->
  closed_plan st' = closed_plan st.
Proof.
  revert st. induction transitions as [| tr rest IH]; intros st Hno H.
  - cbn in H. now injection H as <-.
  - cbn [apply_transitions] in H. rsimpl.
    bind_case H st1 E.
    rewrite (IH st1); [| intros tr' Hin; apply Hno; now right | exact H].
    destruct (Z.eqb_spec (ts_hour ts) (t_time tr)) as [Eh | Eh];
      [| now injection E as <-].
    rewrite (Hno tr (or_introl eq_refl) (eq_sym Eh)) in E.
    destruct (find _ periods); [| now injection E as <-].
    inv_ok E. reflexivity.
Qed.

(** C8 (amended).  A plan for which the closed-period planner found the
    heat pump sufficient has no boiler start time and zero night boiler
    power.  In a closed hour of a day that has periods (predictive mode)
    the dispatch follows the plan in force, and under such a plan the
    boiler power is zero; the plan stays in force as long as no close
    transition occurs. *)
Theorem hp_sufficient_plan_keeps_boiler_off
        (st st' : PlannerState) (idx : Z) (T : Q) (df : list WeatherRow)
        (ts : Timestamp) (c : Control) (period : Period) (periods : list Period)
        (plan : ClosedPlan) :
  ControlSpec.state_planned self st ->
  String.eqb (control_mode (config self)) "reactive" = false ->
  get_periods (scheduler self) (ts_date ts) = Ok (period :: periods) ->
  get_current_period_info (scheduler self) ts (period :: periods) = Ok None ->
  execute_control np_exp pow_0695 self st idx T df ts = Ok (c, st') ->
  closed_plan st' = Some plan ->
  ControlSpec.hp_sufficient self plan ->
  (start_boiler_in plan = None /\ night_boiler_power plan = 0) /\
  Q_boiler c = 0 /\
  ControlSpec.state_planned self st' /\
  (forall transitions,
      get_daily_transitions (scheduler self) (ts_date ts) = Ok transitions ->
      (forall tr, In tr transitions -> t_time tr = ts_hour ts -> t_type tr = TOpen) ->
      forall plan0, closed_plan st = Some plan0 -> plan0 = plan).
Proof.
  intros Hst Hmode Hperiods Hinfo H Hplan Hsuff.
  unfold execute_control in H. rsimpl.
  bind_case H row Erow. bind_case H demand Edemand.
  rewrite Hmode, Hperiods in H. cbn [rbind] in H.
  bind_case H transitions Etransitions.
  bind_case H st1 Est1.
  pose proof (apply_transitions_planned _ _ _ _ _ _ _ _ Hst Est1) as Hst1.
  rewrite Hinfo in H. cbn [rbind] in H.
  bind_case H res Eres.
  destruct res as [[[[[st2 qn] qhp] qb] m] p].
  injection H as <- <-. cbn [Simulator.Q_boiler].
  bind_case Eres closed Eclosed.
  assert (Hclosed : forall plan', closed = Some plan' ->
                                  ControlSpec.hp_sufficient self plan' ->
                                  ControlSpec.boiler_off plan').
  { intros plan' ->. destruct (closed_plan st1) as [plan1 |] eqn:E1.
    - injection Eclosed as <-. now apply Hst1.
    - now apply (plan_closed_period_boiler_off _ _ _ _ _ Eclosed). }
  destruct closed as [plan' |].
  - bind_case Eres d Ed. destruct d as [[[[qn' qhp'] qb'] m'] p'].
    injection Eres as <- _ _ <- _ _. cbn in Hplan. injection Hplan as ->.
    destruct (Hclosed plan eq_refl Hsuff) as [Hsb Hnb].
    split; [split; assumption |]. split.
    + unfold closed_dispatch in Ed. rsimpl.
      bind_case Ed plan_time Et. rewrite Hsb in Ed.
      destruct (activation (hours_between ts plan_time) (start_hp_in plan))
        as [hp_active power_factor].
      bind_case Ed needed En. destruct needed as [[qn2 pre] mo].
      destruct hp_active; now injection Ed as _ _ <- _ _.
    + split.
      * intros plan' Hp'. cbn in Hp'. now apply Hclosed.
      * intros transitions' Ht Hno plan0 Hplan0.
        injection Ht as <-.
        pose proof (apply_transitions_keeps_closed_plan _ _ _ _ _ _ _ _ Hno Est1) as Hk.
        rewrite Hplan0 in Hk. rewrite Hk in Eclosed. now injection Eclosed as <-.
  - injection Eres as <- _ _ <- _ _. cbn in Hplan. discriminate Hplan.
Qed.

Lemma simulate_from_one (st st1 : PlannerState) (idx : Z) (T T1 : Q)
      (df : list WeatherRow) (row : WeatherRow) (rec : HourRecord) :
  simulate_hour np_exp pow_0695 self st idx T df row = Ok (rec, T1, st1) ->
  simulate_from np_exp pow_0695 self st idx T df [row] = Ok [rec].
Proof. intros H. cbn [simulate_from]. rsimpl. rewrite H. reflexivity. Qed.

Lemma simulate_from_two (st st1 st2 : PlannerState) (idx : Z) (T T1 T2 : Q)
      (df : list WeatherRow) (row0 row1 : WeatherRow) (rec0 rec1 : HourRecord) :
  simulate_hour np_exp pow_0695 self st idx T df row0 = Ok (rec0, T1, st1) ->
  simulate_hour np_exp pow_0695 self st1 (idx + 1) T1 df row1 = Ok (rec1, T2, st2) ->
  simulate_from np_exp pow_0695 self st idx T df [row0; row1] = Ok [rec0; rec1].
Proof.
  intros H0 H1. cbn [simulate_from]. rsimpl. rewrite H0. cbn [rbind].
  rewrite H1. reflexivity.
Qed.

(** The forecast that the open plan records is the summed demand over the
    hours of the period. *)
Lemma plan_period_opening_forecast (idx : Z) (T : Q) (df : list WeatherRow)
      (period : Period) (plan : OpenPlan) :
  plan_period_opening np_exp pow_0695 self idx T df period = Ok plan ->
  exists n,
    get_period_duration (scheduler self) period = Ok n /\
    sum_demand np_exp pow_0695 self df idx n T = Ok (day_demand plan).
Proof.
  intros H. unfold plan_period_opening in H. rsimpl.
  bind_case H n En. bind_case H dsum Et.
  bind_case H rates Er. destruct rates as [hp_rate boiler_rate].
  bind_case H row Erow. injection H as <-. cbn. eauto.
Qed.

(** *** The open window of the daily 10:00 to 20:00 schedule *)

Section DailyWindow.

Variable date : Date.
Hypothesis daily_schedule : ControlSpec.opens_10_to_20 (scheduler self) date.
Hypothesis predictive :
  String.eqb (control_mode (config self)) "reactive" = false.
Hypothesis boiler_capacity_nonneg : 0 <= boiler_capacity.

Lemma plan_period_opening_case1 (idx : Z) (T D : Q) (df : list WeatherRow)
      (plan : OpenPlan) :
  sum_demand np_exp pow_0695 self df idx 10 T = Ok D ->
  D <= hp_capacity * 10 + Py.max 0 (T - target_temp (config self)) * thermal_mass_rate self ->
  plan_period_opening np_exp pow_0695 self idx T df Scenario.daily_period = Ok plan ->
  open_case plan = 1%Z /\
  boiler_rate_day plan = 0 /\
  hp_rate_day plan =
  Py.max 0 (Py.min ((D - Py.max 0 (T - target_temp (config self)) * thermal_mass_rate self)
                    / 10) hp_capacity).
Proof.
  intros HD Hle H. unfold plan_period_opening in H. rsimpl.
  destruct daily_schedule as (_ & Hdur & _).
  rewrite Hdur in H. cbn [rbind] in H. rewrite HD in H. cbn [rbind] in H.
  unfold Py.geb in H.
  destruct (leb_cases D
              (Py.max 0 (T - target_temp (config self)) * thermal_mass_rate self
               + hp_capacity * inject_Z 10)) as [[E L] | [E L]].
  - rewrite E in H. rewrite div_ok in H by (now vm_compute). cbn [rbind] in H.
    bind_case H row Erow. injection H as <-. cbn. auto.
  - exfalso. change (inject_Z 10) with 10 in L. lra.
Qed.

Lemma open_dispatch_unmet (Q_needed Q_hp : Q) :
  Py.max 0 (Q_needed - (Q_hp + 0)) == 0 <-> Q_needed <= Q_hp.
Proof.
  unfold Py.max.
  destruct (ltb_cases 0 (Q_needed - (Q_hp + 0))) as [[E L] | [E L]]; rewrite E;
    split; intros; lra.
Qed.

Lemma min_zero_capacity : Py.min 0 boiler_capacity = 0.
Proof.
  unfold Py.min.
  destruct (ltb_cases boiler_capacity 0) as [[E L] | [E L]]; [lra | now rewrite E].
Qed.

(** The hour of the open transition: a new plan is made and followed. *)
Lemma execute_control_opening_plan (st st' : PlannerState) (idx : Z) (T : Q)
      (df : list WeatherRow) (c : Control) :
  execute_control np_exp pow_0695 self st idx T df (mkTimestamp date 10) = Ok (c, st') ->
  exists plan row d,
    plan_period_opening np_exp pow_0695 self idx T df Scenario.daily_period = Ok plan /\
    open_plan st' = Some plan /\
    iloc df idx = Ok row /\
    calculate_heat_demand np_exp pow_0695 self T row (mkTimestamp date 10) = Ok d /\
    Q_needed c = Q_total d /\
    Q_hp c = Py.min (hp_rate_day plan) hp_capacity /\
    Q_boiler c = Py.min (boiler_rate_day plan) boiler_capacity /\
    control_case c = open_case plan /\
    Q_unmet c = Py.max 0 (Q_needed c - (Q_hp c + Q_boiler c)).
Proof.
  intros H. unfold execute_control in H. rsimpl.
  bind_case H row Erow. bind_case H demand Edemand.
  destruct daily_schedule
    as (Hper & _ & (o & cl & Htr & Ho & Hot & Hc & Hct) & Hinfo).
  rewrite predictive in H. cbn [ts_date ts_hour] in H.
  rewrite Hper in H. cbn [rbind] in H. rewrite Htr in H.
  cbn [rbind apply_transitions ts_hour] in H.
  rewrite Ho, Hot, Hc in H.
  cbn [Z.eqb Pos.eqb find p_from Scenario.daily_period] in H.
  rsimpl.
  match type of H with
  | context [plan_period_opening ?e ?p ?s ?i ?t ?d ?q] =>
      destruct (plan_period_opening e p s i t d q) as [plan |] eqn:Eplan;
      cbn [rbind] in H; [| discriminate H]
  end.
  rewrite (Hinfo 10%Z ltac:(lia)) in H.
  cbn [rbind open_plan closed_plan] in H.
  injection H as <- <-. cbn.
  exists plan, row, demand. repeat split; auto.
Qed.

Lemma execute_control_at_opening (st st' : PlannerState) (idx : Z) (T D : Q)
      (df : list WeatherRow) (c : Control) :
  sum_demand np_exp pow_0695 self df idx 10 T = Ok D ->
  D <= hp_capacity * 10 + Py.max 0 (T - target_temp (config self)) * thermal_mass_rate self ->
  execute_control np_exp pow_0695 self st idx T df (mkTimestamp date 10) = Ok (c, st') ->
  exists plan row d,
    plan_period_opening np_exp pow_0695 self idx T df Scenario.daily_period = Ok plan /\
    open_plan st' = Some plan /\
    iloc df idx = Ok row /\
    calculate_heat_demand np_exp pow_0695 self T row (mkTimestamp date 10) = Ok d /\
    Q_needed c = Q_total d /\
    Q_hp c = Py.min (hp_rate_day plan) hp_capacity /\
    Q_boiler c = 0 /\
    control_case c = 1%Z /\
    Q_unmet c = Py.max 0 (Q_needed c - (Q_hp c + Q_boiler c)).
Proof.
  intros HD Hle H.
  destruct (execute_control_opening_plan _ _ _ _ _ _ H)
    as (plan & row & d & Hplan & Hp & Hrow & Hd & Hn & Hhp & Hbo & Hca & Hun).
  destruct (plan_period_opening_case1 _ _ _ _ _ HD Hle Hplan) as (Hcase & Hb & Hrate).
  exists plan, row, d.
  rewrite Hb, min_zero_capacity in Hbo. rewrite Hcase in Hca.
  repeat split; auto.
Qed.

(** A later hour of the window: the plan is kept and followed. *)
Lemma execute_control_in_window (st st' : PlannerState) (idx : Z) (T : Q)
      (df : list WeatherRow) (hour : Z) (plan : OpenPlan) (c : Control) :
  (10 < hour < 20)%Z ->
  open_plan st = Some plan ->
  boiler_rate_day plan = 0 ->
  open_case plan = 1%Z ->
  execute_control np_exp pow_0695 self st idx T df (mkTimestamp date hour) = Ok (c, st') ->
  exists row d,
    open_plan st' = Some plan /\
    iloc df idx = Ok row /\
    calculate_heat_demand np_exp pow_0695 self T row (mkTimestamp date hour) = Ok d /\
    Q_needed c = Q_total d /\
    Q_hp c = Py.min (hp_rate_day plan) hp_capacity /\
    Q_boiler c = 0 /\
    control_case c = 1%Z /\
    Q_unmet c = Py.max 0 (Q_needed c - (Q_hp c + Q_boiler c)).
Proof.
  intros Hh Hplan Hb Hcase H. unfold execute_control in H. rsimpl.
  bind_case H row Erow. bind_case H demand Edemand.
  destruct daily_schedule
    as (Hper & _ & (o & cl & Htr & Ho & Hot & Hc & Hct) & Hinfo).
  rewrite predictive in H. cbn [ts_date ts_hour] in H.
  rewrite Hper in H. cbn [rbind] in H. rewrite Htr in H.
  cbn [rbind apply_transitions ts_hour] in H.
  rewrite Ho, Hc in H. rsimpl.
  destruct (Z.eqb_spec hour 10) as [-> | _]; [lia |].
  destruct (Z.eqb_spec hour 20) as [-> | _]; [lia |].
  cbn [rbind] in H.
  rewrite (Hinfo hour ltac:(lia)), Hplan in H.
  cbn [rbind open_plan closed_plan] in H.
  injection H as <- <-. cbn.
  exists row, demand. rewrite Hb, Hcase, min_zero_capacity. repeat split; auto.
Qed.

Lemma aligned_cons (df : list WeatherRow) (idx : Z) (row : WeatherRow)
      (rest : list WeatherRow) :
  ControlSpec.aligned df idx (row :: rest) ->
  iloc df idx = Ok row /\ ControlSpec.aligned df (idx + 1) rest.
Proof.
  intros H. split.
  - specialize (H O row eq_refl). now rewrite Z.add_0_r in H.
  - intros i r Hr. specialize (H (S i) r Hr).
    now replace (idx + 1 + Z.of_nat i)%Z with (idx + Z.of_nat (S i))%Z by lia.
Qed.

Lemma simulate_window_rest (rest df : list WeatherRow)
      (st : PlannerState) (idx : Z) (T : Q) (plan : OpenPlan)
      (records : list HourRecord) :
  Forall (fun r => ts_date (timestamp r) = date /\
                   (10 < ts_hour (timestamp r) < 20)%Z) rest ->
  ControlSpec.aligned df idx rest ->
  open_plan st = Some plan ->
  boiler_rate_day plan = 0 ->
  open_case plan = 1%Z ->
  simulate_from np_exp pow_0695 self st idx T df rest = Ok records ->
  Forall (ControlSpec.open_dispatch_of self plan) records.
Proof.
  intros Hrest. revert st idx T records.
  induction Hrest as [| row rest [Hdate Hhour] _ IH];
    intros st idx T records Hal Hp Hb Hc H.
  - cbn in H. injection H as <-. constructor.
  - cbn [simulate_from] in H. rsimpl.
    bind_case H hour Ehour. destruct hour as [[rec T'] st1].
    bind_case H results Eresults. injection H as <-.
    apply simulate_hour_inv in Ehour as (Hex & Hdem & _ & -> & _).
    apply aligned_cons in Hal as [Hrow Hal].
    destruct (timestamp row) as [d h] eqn:Ets. cbn in Hdate, Hhour. subst d.
    destruct (execute_control_in_window _ _ _ _ _ _ _ _ Hhour Hp Hb Hc Hex)
      as (row' & dem & Hp' & Hrow' & Hd & Hn & Hhp & Hbo & Hca & Hun).
    rewrite Hrow in Hrow'. injection Hrow' as <-.
    rewrite Hdem in Hd. injection Hd as <-.
    constructor; [| eapply IH; eassumption].
    unfold ControlSpec.open_dispatch_of. cbn zeta.
    repeat split; try assumption; rewrite Hun, Hbo; apply open_dispatch_unmet.
Qed.


End DailyWindow.

End Engine.

Import Scenario.

(** *** The scenarios, evaluated *)

Lemma warm_opening_eq :
  simulate_hour Approx.exp Approx.pow_0695 (daily_system "predictive")
                initial_state 0 28.5 open_window (constant_row (mkDate 2024 1 15) 10)
  = warm_opening.
Proof. vm_cast_no_check (@eq_refl _ warm_opening). Qed.

Lemma friday_close_eq :
  simulate_hour Approx.exp Approx.pow_0695 weekend_system initial_state 0
                (target_temp (config weekend_system)) friday_night
                (constant_row (mkDate 2024 1 19) 23)
  = friday_close.
Proof. vm_cast_no_check (@eq_refl _ friday_close). Qed.

Lemma saturday_midnight_eq :
  match friday_close with
  | Ok (_, T1, st1) =>
      simulate_hour Approx.exp Approx.pow_0695 weekend_system st1 1 T1
                    friday_night (cold_row (mkDate 2024 1 20) 0)
  | Raise e => Raise e
  end = saturday_midnight.
Proof. vm_cast_no_check (@eq_refl _ saturday_midnight). Qed.

Lemma sunny_noon_eq :
  simulate_hour Approx.exp Approx.pow_0695 (daily_system "reactive")
                initial_state 0 28 [sunny_row (mkDate 2024 7 1) 12]
                (sunny_row (mkDate 2024 7 1) 12)
  = sunny_noon.
Proof. vm_cast_no_check (@eq_refl _ sunny_noon). Qed.

Lemma daily_system_opens_10_to_20 (control_mode : string) (date : Date) :
  ControlSpec.opens_10_to_20 (scheduler (daily_system control_mode)) date.
Proof.
  split; [reflexivity |]. split; [reflexivity |]. split.
  - eexists _, _. split; [reflexivity |]. repeat split.
  - intros hour Hh. cbn. unfold PoolSchedulerDB.period_contains. cbn.
    destruct (Z.leb_spec 10 hour); [| lia].
    destruct (Z.ltb_spec hour 20); [reflexivity | lia].
Qed.

(** What the evaluated hours are, and the facts read off them. *)
Lemma warm_opening_facts :
  let self := daily_system "predictive" in
  let row0 := constant_row (mkDate 2024 1 15) 10 in
  exists D rec T1 st' plan,
    sum_demand Approx.exp Approx.pow_0695 self open_window 0 10 28.5 = Ok D /\
    simulate_hour Approx.exp Approx.pow_0695 self initial_state 0 28.5
                  open_window row0 = Ok (rec, T1, st') /\
    open_plan st' = Some plan /\
    D <= hp_capacity_kw (config self) * 10
         + Py.max 0 (28.5 - target_temp (config self)) * thermal_mass_rate self /\
    open_case plan = 1%Z /\
    boiler_rate_day plan == 0 /\
    Q_boiler (hr_control rec) == 0 /\
    control_case (hr_control rec) = 1%Z /\
    9 < Q_unmet (hr_control rec).
Proof.
  intros self row0.
  pose proof warm_opening_eq as EO. unfold warm_opening in EO.
  pose proof EO as Hex. apply simulate_hour_inv in Hex as (Hex & _).
  destruct (execute_control_opening_plan Approx.exp Approx.pow_0695 self
              (mkDate 2024 1 15)
              (daily_system_opens_10_to_20 "predictive" (mkDate 2024 1 15))
              eq_refl _ _ _ _ _ _ Hex)
    as (plan & _ & _ & Hplan & Hopen & _).
  cbn [open_plan] in Hopen. injection Hopen as <-.
  destruct (plan_period_opening_forecast _ _ _ _ _ _ _ _ Hplan) as (n & Hn & HD).
  injection Hn as <-.
  eexists _, _, _, _, _.
  split; [exact HD |]. split; [exact EO |]. split; [reflexivity |].
  vm_compute. repeat split; try reflexivity; intro; discriminate.
Qed.

Lemma friday_night_facts :
  let self := weekend_system in
  let row0 := constant_row (mkDate 2024 1 19) 23 in
  let row1 := cold_row (mkDate 2024 1 20) 0 in
  exists rec0 T1 st1 plan rec1 T2 st2,
    simulate_hour Approx.exp Approx.pow_0695 self initial_state 0
                  (target_temp (config self)) friday_night row0 = Ok (rec0, T1, st1) /\
    simulate_hour Approx.exp Approx.pow_0695 self st1 1 T1 friday_night row1
      = Ok (rec1, T2, st2) /\
    closed_plan st1 = Some plan /\
    ControlSpec.hp_sufficient self plan /\
    start_boiler_in plan = None /\
    night_boiler_power plan == 0 /\
    hours_to_open plan = 35%Z /\
    Q_boiler (hr_control rec0) == 0 /\
    19 < Q_boiler (hr_control rec1).
Proof.
  intros self row0 row1.
  pose proof friday_close_eq as E0. pose proof saturday_midnight_eq as E1.
  unfold friday_close in E0, E1. cbv beta iota in E1.
  unfold saturday_midnight in E1.
  eexists _, _, _, _, _, _, _.
  split; [exact E0 |]. split; [exact E1 |]. split; [reflexivity |].
  vm_compute. repeat split; try reflexivity; intro; discriminate.
Qed.

Lemma sunny_noon_facts :
  let self := daily_system "reactive" in
  let row := sunny_row (mkDate 2024 7 1) 12 in
  exists rec T1 st',
    simulate_hour Approx.exp Approx.pow_0695 self initial_state 0 28 [row] row
      = Ok (rec, T1, st') /\
    Q_total (hr_demand rec) < 0.
Proof.
  intros self row.
  pose proof sunny_noon_eq as E. unfold sunny_noon in E.
  eexists _, _, _. split; [exact E |]. now vm_compute.
Qed.



Lemma negative_demand_gives_negative_dispatch_witness :
  let self := daily_system "reactive" in
  let row := sunny_row (mkDate 2024 7 1) 12 in
  exists d c st',
    (calculate_heat_demand Approx.exp Approx.pow_0695 self 28 row (timestamp row) = Ok d /\
     execute_control Approx.exp Approx.pow_0695 self initial_state 0 28 [row]
                     (timestamp row) = Ok (c, st') /\
     target_temp (config self) <= 28 /\
     Q_total d < 0) /\
    Q_hp c < 0 /\ Q_delivered c < 0 /\ Q_hp c = Q_needed c.
Proof.
  intros self row.
  destruct sunny_noon_facts as (rec & T1 & st' & E & Hneg).
  apply simulate_hour_inv in E as (Hex & Hdem & _).
  assert (HT : target_temp (config self) <= 28) by (cbn; lra).
  exists (hr_demand rec), (hr_control rec), st'.
  split; [split; [exact Hdem | split; [exact Hex | split; [exact HT | exact Hneg]]] |].
  destruct (negative_demand_gives_negative_dispatch Approx.exp Approx.pow_0695 self
              initial_state st' 0 28 [row] (timestamp row) row (hr_demand rec)
              (hr_control rec) eq_refl Hdem (or_introl eq_refl) Hex HT Hneg)
    as (_ & _ & _ & Hhp & Hdel & Heq).
  split; [exact Hhp |]. split; [exact Hdel |].
  apply Heq. cbn. lra.
Defined.

Lemma forecast_250_is_case_3_witness :
  (hp_capacity_kw shallow_config == 100 /\
   boiler_capacity_kw shallow_config == 200 /\
   (250 : Q) == 250 /\
   hp_capacity_kw shallow_config + thermal_mass_rate shallow_system < 250) /\
  classify_demand shallow_system 250 = Ok (3%Z, 29.0, 100, 250 - 100).
Proof.
  assert (H1 : hp_capacity_kw shallow_config == 100) by reflexivity.
  assert (H2 : boiler_capacity_kw shallow_config == 200) by reflexivity.
  assert (H3 : (250 : Q) == 250) by reflexivity.
  assert (H4 : hp_capacity_kw shallow_config + thermal_mass_rate shallow_system < 250)
    by (now vm_compute).
  split; [split; [exact H1 | split; [exact H2 | split; [exact H3 | exact H4]]] |].
  exact (proj1 (forecast_250_is_case_3 Approx.exp Approx.pow_0695 shallow_system
                  250 H1 H2 H3 H4)).
Defined.

(** C8, as stated, fails.  On Friday at 23:00 the pool closes and the
    planner finds the heat pump sufficient for the 35 hours until Sunday
    10:00 (no boiler start time, zero night boiler power).  Saturday has no
    periods, so its hours are dispatched by the thermostat branch, whatever
    the plan says: at 00:00, in the same closed period, the demand of about
    39.7 kW exceeds the 20 kW heat pump and the boiler delivers the rest. *)
Lemma boiler_fires_on_day_without_periods :
  let self := weekend_system in
  let saturday := mkTimestamp (mkDate 2024 1 20) 0 in
  exists rec0 T1 st1 plan rec1,
    simulate_year Approx.exp Approx.pow_0695 self friday_night = Ok [rec0; rec1] /\
    simulate_hour Approx.exp Approx.pow_0695 self initial_state 0
                  (target_temp (config self)) friday_night
                  (constant_row (mkDate 2024 1 19) 23) = Ok (rec0, T1, st1) /\
    closed_plan st1 = Some plan /\
    ControlSpec.hp_sufficient self plan /\
    start_boiler_in plan = None /\
    night_boiler_power plan == 0 /\
    hours_to_open plan = 35%Z /\
    Q_boiler (hr_control rec0) == 0 /\
    is_open (scheduler self) saturday = Ok false /\
    get_periods (scheduler self) (ts_date saturday) = Ok [] /\
    19 < Q_boiler (hr_control rec1).
Proof.
  intros self saturday.
  destruct friday_night_facts
    as (rec0 & T1 & st1 & plan & rec1 & T2 & st2 & E0 & E1 & Hp & Hs & Hsb & Hnb & Hh & Hb0 & Hb1).
  pose proof (simulate_from_two _ _ _ _ _ _ _ _ _ _ _ _ _ _ _ E0 E1) as R.
  exists rec0, T1, st1, plan, rec1.
  split; [exact R |]. split; [exact E0 |]. split; [exact Hp |]. split; [exact Hs |].
  split; [exact Hsb |]. split; [exact Hnb |]. split; [exact Hh |]. split; [exact Hb0 |].
  split; [reflexivity |]. split; [reflexivity | exact Hb1].
Qed.

Lemma hp_sufficient_plan_keeps_boiler_off_witness :
  let self := weekend_system in
  let ts := mkTimestamp (mkDate 2024 1 19) 23 in
  exists c st1 plan,
    (get_periods (scheduler self) (ts_date ts) = Ok [late_period] /\
     get_current_period_info (scheduler self) ts [late_period] = Ok None /\
     execute_control Approx.exp Approx.pow_0695 self initial_state 0
                     (target_temp (config self)) friday_night ts = Ok (c, st1) /\
     closed_plan st1 = Some plan /\
     ControlSpec.hp_sufficient self plan) /\
    start_boiler_in plan = None /\ Q_boiler c = 0.
Proof.
  intros self ts.
  destruct friday_night_facts
    as (rec0 & T1 & st1 & plan & rec1 & T2 & st2 & E0 & _ & Hp & Hs & _).
  apply simulate_hour_inv in E0 as (Hex & _).
  exists (hr_control rec0), st1, plan.
  split;
    [split; [reflexivity | split; [reflexivity | split; [exact Hex | split;
       [exact Hp | exact Hs]]]] |].
  destruct (hp_sufficient_plan_keeps_boiler_off Approx.exp Approx.pow_0695 self
              initial_state st1 0 (target_temp (config self)) friday_night ts
              (hr_control rec0) late_period [] plan
              ltac:(intros p Hq; discriminate Hq) eq_refl eq_refl eq_refl Hex Hp Hs)
    as ([Hsb _] & Hb & _).
  split; [exact Hsb | exact Hb].
Defined.



End ControlFacts.

(** * Further properties of the schedule resolver *)

Module SchedulerInvariants.
Import Calendar PoolSchedulerDB SchedulerSpec SchedulerProps PyFacts.

Lemma in_range (n z : Z) : 0 <= z < n -> In z (Py.range n).
Proof.
  intros H. unfold Py.range. apply in_map_iff.
  exists (Z.to_nat z). split; [lia |]. apply in_seq. lia.
Qed.

Lemma range_in (n z : Z) : In z (Py.range n) -> 0 <= z < n.
Proof.
  unfold Py.range. intros H. apply in_map_iff in H as (k & <- & Hk).
  apply in_seq in Hk. lia.
Qed.

(** *** Easter *)

Lemma easter_fallback_bounds (y : Z) :
  let a := y mod 19 in
  let b := y / 100 in
  let c := y mod 100 in
  let d := b / 4 in
  let e := b mod 4 in
  let f := (b + 8) / 25 in
  let g := (b - f + 1) / 3 in
  let h := (19 * a + b - d - g + 15) mod 30 in
  let i := c / 4 in
  let k := c mod 4 in
  let l := (32 + 2 * e + 2 * i - h - k) mod 7 in
  let m := (a + 11 * h + 22 * l) / 451 in
  let n := h + l - 7 * m + 114 in
  (n / 31 = 3 /\ 22 <= n mod 31 + 1 <= 31) \/
  (n / 31 = 4 /\ 1 <= n mod 31 + 1 <= 25).
Proof.
  intros a b c d e f g h i k l m n.
  assert (Ha : 0 <= a < 19) by (apply Z.mod_pos_bound; lia).
  assert (Hh : 0 <= h < 30) by (apply Z.mod_pos_bound; lia).
  assert (Hl : 0 <= l < 7) by (apply Z.mod_pos_bound; lia).
  clearbody a h l. clear b c d e f g i k.
  subst n m.
  Z.to_euclidean_division_equations. lia.
Qed.

Lemma easter_fallback (self : t) (y : Z) :
  holiday_dates self !! y = None ->
  _get_easter_date self y = _get_easter_date (example_scheduler true) y.
Proof.
  intros H. unfold _get_easter_date. rewrite H.
  change (holiday_dates (example_scheduler true)) with (∅ : gmap Z Date).
  now rewrite lookup_empty.
Qed.

Lemma easter_sundays_eq : easter_sundays 1583 1417 = true.
Proof. vm_compute. reflexivity. Qed.

(** X1.  Without a table entry for the year, the Easter date computed by
    the fallback lies in that year between 22 March and 25 April, so the
    [date(year, month, day)] it builds is a calendar date. *)
Theorem easter_fallback_in_season (self : t) (y : Z) :
  holiday_dates self !! y = None ->
  let d := _get_easter_date self y in
  year d = y /\
  ((month d = 3 /\ 22 <= day d <= 31) \/ (month d = 4 /\ 1 <= day d <= 25)).
Proof.
  intros H d. unfold d, _get_easter_date. rewrite H. cbn [year month day].
  split; [reflexivity |]. apply easter_fallback_bounds.
Qed.

Lemma easter_fallback_in_season_witness :
  holiday_dates (example_scheduler true) !! 2024 = None /\
  _get_easter_date (example_scheduler true) 2024 = mkDate 2024 3 31.
Proof.
  split; [reflexivity |].
  pose proof (easter_fallback_in_season (example_scheduler true) 2024 eq_refl) as _.
  reflexivity.
Defined.

(** X2.  For every year from 1583 to 2999 without a table entry, the
    Easter date computed by the fallback is a Sunday. *)
Theorem easter_fallback_is_sunday (self : t) (y : Z) :
  holiday_dates self !! y = None ->
  1583 <= y <= 2999 ->
  weekday (_get_easter_date self y) = 6.
Proof.
  intros H Hy. rewrite (easter_fallback self y H).
  pose proof easter_sundays_eq as E. unfold easter_sundays in E.
  rewrite forallb_forall in E.
  specialize (E (y - 1583) ltac:(apply in_range; lia)).
  replace (1583 + (y - 1583)) with y in E by lia.
  now apply Z.eqb_eq in E.
Qed.

Lemma easter_fallback_is_sunday_witness :
  (holiday_dates (example_scheduler true) !! 2025 = None /\ 1583 <= 2025 <= 2999) /\
  _get_easter_date (example_scheduler true) 2025 = mkDate 2025 4 20 /\
  weekday (mkDate 2025 4 20) = 6.
Proof.
  assert (H1 : holiday_dates (example_scheduler true) !! 2025 = None) by reflexivity.
  assert (H2 : 1583 <= 2025 <= 2999) by lia.
  split; [split; [exact H1 | exact H2] |]. split; [reflexivity |].
  exact (easter_fallback_is_sunday (example_scheduler true) 2025 H1 H2).
Defined.

(** *** Sorting *)

Section Sorting.
Context {A : Type} (key : A -> Z).

Lemma insert_by_key_perm (x : A) (l : list A) :
  Permutation (insert_by_key key x l) (x :: l).
Proof.
  induction l as [| y l IH]; cbn; [reflexivity |].
  destruct (key x <=? key y); [reflexivity |].
  rewrite IH. apply perm_swap.
Qed.

Lemma sort_by_key_perm (l : list A) : Permutation (sort_by_key key l) l.
Proof.
  induction l as [| x l IH]; cbn; [reflexivity |].
  rewrite insert_by_key_perm. now constructor.
Qed.

Lemma insert_by_key_sorted (x : A) (l : list A) :
  StronglySorted (key_le key) l -> StronglySorted (key_le key) (insert_by_key key x l).
Proof.
  induction 1 as [| y l Hs IH Hy]; cbn.
  - repeat constructor.
  - destruct (Z.leb_spec (key x) (key y)) as [L | L].
    + constructor; [now constructor |].
      constructor; [exact L |].
      eapply Forall_impl; [exact Hy |]. unfold key_le. intros a Ha. lia.
    + constructor; [exact IH |].
      rewrite insert_by_key_perm.
      constructor; [unfold key_le; lia | exact Hy].
Qed.

Lemma sort_by_key_sorted (l : list A) : StronglySorted (key_le key) (sort_by_key key l).
Proof.
  induction l as [| x l IH]; cbn; [constructor |].
  now apply insert_by_key_sorted.
Qed.

Lemma insert_by_key_stable (k : Z) (x : A) (l : list A) :
  with_key key k (insert_by_key key x l) = with_key key k (x :: l).
Proof.
  unfold with_key. induction l as [| y l IH]; cbn; [reflexivity |].
  destruct (Z.leb_spec (key x) (key y)) as [L | L]; [reflexivity |].
  cbn. rewrite IH. cbn.
  destruct (Z.eqb_spec (key x) k) as [Ex | Ex]; [| reflexivity].
  destruct (Z.eqb_spec (key y) k) as [Ey | Ey]; [lia | reflexivity].
Qed.

Lemma sort_by_key_stable (k : Z) (l : list A) :
  with_key key k (sort_by_key key l) = with_key key k l.
Proof.
  induction l as [| x l IH]; [reflexivity |].
  change (sort_by_key key (x :: l)) with (insert_by_key key x (sort_by_key key l)).
  rewrite insert_by_key_stable. unfold with_key in *. cbn. now rewrite IH.
Qed.

Lemma find_sorted_least (f : A -> bool) (l : list A) (x : A) :
  StronglySorted (key_le key) l ->
  List.find f l = Some x ->
  forall y, In y l -> f y = true -> key x <= key y.
Proof.
  induction 1 as [| a l Hs IH Ha]; cbn; [discriminate |].
  destruct (f a) eqn:Fa.
  - intros [= <-] y [<- | Hy] _; [lia |].
    rewrite List.Forall_forall in Ha. now apply Ha.
  - intros Hx y [<- | Hy] Fy; [congruence |]. now apply IH.
Qed.

End Sorting.

Lemma transitions_of_length (periods : list Period) (last : option Q) :
  List.length (transitions_of periods last) = (2 * List.length periods)%nat.
Proof.
  revert last. induction periods as [| p l IH]; intros last; cbn; [reflexivity |].
  rewrite IH. lia.
Qed.

Lemma transitions_of_open (periods : list Period) (last : option Q) (tr : Transition) :
  In tr (transitions_of periods last) ->
  t_type tr = TOpen ->
  exists p, In p periods /\ t_time tr = p_from p /\
            t_target_temp tr = Some (p_target_temp p).
Proof.
  revert last. induction periods as [| p l IH]; intros last; cbn; [tauto |].
  intros [<- | [<- | H]] Ht.
  - exists p. cbn. auto.
  - discriminate Ht.
  - destruct (IH _ H Ht) as (q & Hq & Hr). exists q. auto.
Qed.

Lemma transitions_of_close (periods : list Period) (last : option Q) (tr : Transition) :
  In tr (transitions_of periods last) ->
  t_type tr = TClose ->
  exists p, In p periods /\ t_time tr = p_to p /\
            t_from_temp tr = Some (p_target_temp p).
Proof.
  revert last. induction periods as [| p l IH]; intros last; cbn; [tauto |].
  intros [<- | [<- | H]] Ht.
  - discriminate Ht.
  - exists p. cbn. auto.
  - destruct (IH _ H Ht) as (q & Hq & Hr). exists q. auto.
Qed.

Lemma transitions_of_period (periods : list Period) (last : option Q) (p : Period) :
  In p periods ->
  exists o c,
    In o (transitions_of periods last) /\ In c (transitions_of periods last) /\
    t_type o = TOpen /\ t_time o = p_from p /\
    t_target_temp o = Some (p_target_temp p) /\
    t_type c = TClose /\ t_time c = p_to p.
Proof.
  revert last. induction periods as [| q l IH]; intros last; cbn; [tauto |].
  intros [-> | H].
  - eexists _, _. split; [left; reflexivity |]. split; [right; left; reflexivity |].
    cbn. auto 10.
  - destruct (IH (Some (p_target_temp q)) H) as (o & c & Ho & Hc & R).
    exists o, c. auto 10.
Qed.

Lemma get_daily_transitions_inv (self : t) (date : Date) (ts : list Transition) :
  get_daily_transitions self date = Ok ts ->
  exists periods,
    get_periods self date = Ok periods /\
    ts = sort_by_key t_time (transitions_of periods None).
Proof.
  unfold get_daily_transitions. rsimpl.
  destruct (get_periods self date) as [periods |]; cbn; [| discriminate].
  intros [= <-]. eauto.
Qed.

(** X4.  The transitions of a day are ordered by hour; they are a
    rearrangement of one open and one close per period (twice as many
    entries as periods), transitions at the same hour keep the order in
    which the periods list them (the sort is stable), and every period
    has its open at [from] with its target and its close at [to]. *)
Theorem daily_transitions_sorted (self : t) (date : Date) (ts : list Transition) :
  get_daily_transitions self date = Ok ts ->
  exists periods,
    get_periods self date = Ok periods /\
    StronglySorted (key_le t_time) ts /\
    Permutation ts (transitions_of periods None) /\
    List.length ts = (2 * List.length periods)%nat /\
    (forall h, with_key t_time h ts = with_key t_time h (transitions_of periods None)) /\
    (forall p, In p periods ->
       exists o c,
         In o ts /\ In c ts /\
         t_type o = TOpen /\ t_time o = p_from p /\
         t_target_temp o = Some (p_target_temp p) /\
         t_type c = TClose /\ t_time c = p_to p).
Proof.
  intros H. apply get_daily_transitions_inv in H as (periods & Hp & ->).
  exists periods. split; [exact Hp |].
  split; [apply sort_by_key_sorted |].
  split; [apply sort_by_key_perm |].
  split.
  - rewrite (Permutation_length (sort_by_key_perm t_time _)).
    apply transitions_of_length.
  - split; [intros h; apply sort_by_key_stable |].
    intros p Hin.
    destruct (transitions_of_period periods None p Hin) as (o & c & Ho & Hc & R).
    exists o, c.
    split; [eapply Permutation_in; [symmetry; apply sort_by_key_perm | exact Ho] |].
    split; [eapply Permutation_in; [symmetry; apply sort_by_key_perm | exact Hc] |].
    exact R.
Qed.

Lemma daily_transitions_sorted_witness :
  let ts := [mkTransition 10 TOpen (Some 28%Q) None;
             mkTransition 20 TClose None (Some 28%Q)] in
  get_daily_transitions (example_scheduler true) (mkDate 2024 12 26) = Ok ts /\
  StronglySorted (key_le t_time) ts /\
  List.length ts = 2%nat.
Proof.
  intros ts.
  assert (H : get_daily_transitions (example_scheduler true) (mkDate 2024 12 26) = Ok ts)
    by reflexivity.
  split; [exact H |].
  destruct (daily_transitions_sorted _ _ _ H) as (periods & Hp & Hs & _ & Hl & _).
  split; [exact Hs | reflexivity].
Defined.

(** *** Periods and clock hours *)

Lemma duration_matches_all :
  List.forallb (fun from => List.forallb (duration_matches from) (Py.range 25))
               (Py.range 25) = true.
Proof. vm_compute. reflexivity. Qed.

Lemma period_contains_from (p : Period) : period_contains p (p_from p) = true.
Proof.
  unfold period_contains.
  destruct (Z.ltb_spec (p_from p) (p_to p)) as [L | L].
  - apply andb_true_iff. split; [apply Z.leb_le; lia | reflexivity].
  - apply orb_true_iff. left. apply Z.leb_le. lia.
Qed.

(** X3.  For a period whose hours are on the clock ([from] in 0..23,
    [to] in 0..24), [get_period_duration] is the number of clock hours
    0..23 that the containment test of [get_current_period] accepts, an
    overnight period included, and lies between 1 and 24. *)
Theorem period_duration_counts_hours (p : Period) :
  0 <= p_from p <= 23 ->
  0 <= p_to p <= 24 ->
  get_period_duration p = hours_contained p /\
  1 <= get_period_duration p <= 24.
Proof.
  intros Hf Ht.
  pose proof duration_matches_all as E.
  rewrite forallb_forall in E.
  specialize (E (p_from p) ltac:(apply in_range; lia)).
  rewrite forallb_forall in E.
  specialize (E (p_to p) ltac:(apply in_range; lia)).
  unfold duration_matches in E.
  destruct p as [from to target lo hi]. cbn [p_from p_to] in *.
  change (get_period_duration (mkPeriod from to 0 None None))
    with (get_period_duration (mkPeriod from to target lo hi)) in E.
  change (hours_contained (mkPeriod from to 0 None None))
    with (hours_contained (mkPeriod from to target lo hi)) in E.
  apply andb_true_iff in E as [E1 E2]. apply Z.eqb_eq in E1.
  split; [exact E1 |].
  apply orb_true_iff in E2 as [E2 | E2]; [apply Z.leb_le in E2; lia |].
  apply andb_true_iff in E2 as [E2 E3]. apply Z.leb_le in E2, E3. lia.
Qed.

Lemma period_duration_counts_hours_witness :
  (0 <= p_from (mkPeriod 22 6 28 None None) <= 23 /\
   0 <= p_to (mkPeriod 22 6 28 None None) <= 24) /\
  get_period_duration (mkPeriod 22 6 28 None None) = 8 /\
  hours_contained (mkPeriod 22 6 28 None None) = 8.
Proof.
  assert (Hf : 0 <= p_from (mkPeriod 22 6 28 None None) <= 23) by (cbn; lia).
  assert (Ht : 0 <= p_to (mkPeriod 22 6 28 None None) <= 24) by (cbn; lia).
  split; [split; [exact Hf | exact Ht] |].
  destruct (period_duration_counts_hours (mkPeriod 22 6 28 None None) Hf Ht) as [E _].
  split; [reflexivity | rewrite <- E; reflexivity].
Defined.

(** *** The current period *)

Lemma find_prefix {A : Type} (f : A -> bool) (l : list A) (x : A) :
  List.find f l = Some x ->
  exists before after,
    l = before ++ x :: after /\ f x = true /\
    forall y, In y before -> f y = false.
Proof.
  induction l as [| a l IH]; cbn; [discriminate |].
  destruct (f a) eqn:Fa.
  - intros [= <-]. exists [], l. cbn. tauto.
  - intros H. destruct (IH H) as (b & c & -> & Fx & Hb).
    exists (a :: b), c. split; [reflexivity |]. split; [exact Fx |].
    intros y [<- | Hy]; auto.
Qed.

(** X5.  On a day whose periods resolve, [is_open],
    [get_current_period] and [get_current_temperature] agree: the pool
    is open exactly when some period contains the hour; the current
    period is the first period of the list that contains the hour, its
    target is the current temperature, and no current period means
    closed. *)
Theorem open_iff_current_period (self : t) (date : Date) (hour : Z)
        (periods : list Period) :
  get_periods self date = Ok periods ->
  (is_open self date hour = Ok true <->
   exists p, In p periods /\ period_contains p hour = true) /\
  (is_open self date hour = Ok true \/ is_open self date hour = Ok false) /\
  (forall p,
     get_current_period self date hour = Ok (Some p) ->
     get_current_temperature self date hour = Ok (Some (p_target_temp p)) /\
     is_open self date hour = Ok true /\
     exists before after,
       periods = before ++ p :: after /\ period_contains p hour = true /\
       forall q, In q before -> period_contains q hour = false) /\
  (get_current_period self date hour = Ok None <->
   is_open self date hour = Ok false).
Proof.
  intros Hp.
  unfold is_open, get_current_temperature, get_current_period. rsimpl.
  rewrite Hp. cbn [rbind].
  destruct (List.find (fun p => period_contains p hour) periods) as [p0 |] eqn:E; cbn.
  - split.
    + split; [intros _ | reflexivity].
      apply find_some in E. eauto.
    + split; [now left |]. split.
      * intros p [= <-]. split; [reflexivity |]. split; [reflexivity |].
        now apply find_prefix in E.
      * split; discriminate.
  - split.
    + split; [discriminate |].
      intros (p & Hin & Hc). pose proof (find_none _ _ E p Hin) as N.
      cbv beta in N. congruence.
    + split; [now right |]. split; [discriminate |]. split; reflexivity.
Qed.

Lemma open_iff_current_period_witness :
  get_periods (example_scheduler true) (mkDate 2024 12 26) = Ok [example_period] /\
  is_open (example_scheduler true) (mkDate 2024 12 26) 10 = Ok true.
Proof.
  assert (H : get_periods (example_scheduler true) (mkDate 2024 12 26)
              = Ok [example_period]) by reflexivity.
  split; [exact H |].
  apply (proj1 (open_iff_current_period _ _ 10 _ H)).
  exists example_period. split; [left; reflexivity | reflexivity].
Defined.
(** *** The next opening *)

Lemma is_open_contains (self : t) (date : Date) (hour : Z) (periods : list Period)
      (p : Period) :
  get_periods self date = Ok periods ->
  In p periods ->
  period_contains p hour = true ->
  is_open self date hour = Ok true.
Proof.
  intros Hp Hin Hc.
  unfold is_open, get_current_temperature. rsimpl. rewrite Hp. cbn [rbind].
  destruct (List.find (fun p => period_contains p hour) periods) eqn:E; [reflexivity |].
  pose proof (find_none _ _ E p Hin) as N. cbv beta in N. congruence.
Qed.

Lemma opening_at_inv (date : Date) (tr : Transition)
      (r : option (Date * Z * option Q)) :
  opening_at date tr = Ok r ->
  r = Some (date, t_time tr, t_target_temp tr) /\ 0 <= t_time tr <= 23.
Proof.
  unfold opening_at.
  destruct (Z.leb_spec 0 (t_time tr)); destruct (Z.leb_spec (t_time tr) 23); cbn;
    try discriminate.
  intros [= <-]. split; [reflexivity | lia].
Qed.

Lemma is_open_type_open (x : Transition) :
  is_open_type (t_type x) = true -> t_type x = TOpen.
Proof. destruct (t_type x); [reflexivity | discriminate]. Qed.

Lemma open_after_is_open (hour : Z) (x : Transition) :
  is_open_type (t_type x) && (hour <? t_time x) = true -> t_type x = TOpen.
Proof. intros H. apply andb_true_iff in H as [H _]. now apply is_open_type_open. Qed.

(** The first open transition of a day is the opening of a period of that
    day, and no period of the day opens earlier. *)
Lemma first_open_transition (self : t) (date : Date) (ts : list Transition)
      (f : Transition -> bool) (tr : Transition) :
  get_daily_transitions self date = Ok ts ->
  (forall x, f x = true -> t_type x = TOpen) ->
  List.find f ts = Some tr ->
  exists periods p,
    get_periods self date = Ok periods /\ In p periods /\
    t_time tr = p_from p /\ t_target_temp tr = Some (p_target_temp p) /\
    f tr = true /\
    forall o, In o ts -> f o = true -> t_time tr <= t_time o.
Proof.
  intros Ht Hf E.
  apply get_daily_transitions_inv in Ht as (periods & Hp & ->).
  pose proof (find_some _ _ E) as [Hin Ftr].
  apply (Permutation_in _ (sort_by_key_perm t_time _)) in Hin.
  destruct (transitions_of_open _ _ _ Hin (Hf _ Ftr)) as (p & Hpin & Htime & Htemp).
  exists periods, p. repeat (split; [assumption |]).
  intros o Ho Fo.
  exact (find_sorted_least t_time f _ tr (sort_by_key_sorted t_time _) E o Ho Fo).
Qed.

(** A day without an open transition has no periods. *)
Lemma no_open_transition (self : t) (date : Date) (ts : list Transition) :
  get_daily_transitions self date = Ok ts ->
  List.find (fun trans => is_open_type (t_type trans)) ts = None ->
  get_periods self date = Ok [].
Proof.
  intros Ht E.
  apply get_daily_transitions_inv in Ht as (periods & Hp & ->).
  destruct periods as [| p l]; [exact Hp |]. exfalso.
  destruct (transitions_of_period (p :: l) None p (or_introl eq_refl))
    as (o & _ & Ho & _ & Hty & _).
  apply (Permutation_in _ (Permutation_sym (sort_by_key_perm t_time _))) in Ho.
  pose proof (find_none _ _ E o Ho) as N. cbv beta in N.
  rewrite Hty in N. discriminate N.
Qed.

Lemma get_daily_transitions_none (self : t) (date : Date) :
  get_periods self date = Ok [] -> get_daily_transitions self date = Ok [].
Proof. intros H. unfold get_daily_transitions. rsimpl. now rewrite H. Qed.

Lemma search_next_days_some (self : t) (date : Date) (n a : nat)
      (d' : Date) (h' : Z) (temp : option Q) :
  search_next_days self date (offsets_from a n) = Ok (Some (d', h', temp)) ->
  exists k ts tr,
    Z.of_nat a + 1 <= k <= Z.of_nat a + Z.of_nat n /\
    d' = add_days date k /\
    get_daily_transitions self d' = Ok ts /\
    List.find (fun trans => is_open_type (t_type trans)) ts = Some tr /\
    h' = t_time tr /\ temp = t_target_temp tr /\ 0 <= h' <= 23 /\
    forall j, Z.of_nat a + 1 <= j < k -> get_periods self (add_days date j) = Ok [].
Proof.
  revert a. induction n as [| n IH]; intros a; cbn; [discriminate |].
  rsimpl.
  destruct (get_daily_transitions self (add_days date (Z.of_nat a + 1)))
    as [ts |] eqn:Et; cbn [rbind]; [| discriminate].
  destruct (List.find (fun trans => is_open_type (t_type trans)) ts) as [tr |] eqn:E.
  - intros H. apply opening_at_inv in H as [[= -> -> ->] Hb].
    exists (Z.of_nat a + 1), ts, tr.
    split; [lia |]. repeat (split; [auto; fail |]). intros j Hj. lia.
  - intros H. destruct (IH (S a) H) as (k & ts' & tr & Hk & Hd & Ht' & Hf & Hh & Htemp & Hb & Hbefore).
    exists k, ts', tr. split; [lia |]. repeat (split; [assumption |]).
    intros j Hj.
    destruct (Z.eq_dec j (Z.of_nat a + 1)) as [-> | Hne].
    + now apply (no_open_transition self _ ts).
    + apply Hbefore. lia.
Qed.

Lemma search_next_days_none (self : t) (date : Date) (n a : nat) :
  search_next_days self date (offsets_from a n) = Ok None <->
  forall j, Z.of_nat a + 1 <= j <= Z.of_nat a + Z.of_nat n ->
            get_periods self (add_days date j) = Ok [].
Proof.
  revert a. induction n as [| n IH]; intros a; cbn.
  - split; [intros _ j Hj; lia | reflexivity].
  - rsimpl. split.
    + destruct (get_daily_transitions self (add_days date (Z.of_nat a + 1)))
        as [ts |] eqn:Et; cbn [rbind]; [| discriminate].
      destruct (List.find (fun trans => is_open_type (t_type trans)) ts) as [tr |] eqn:E.
      * intros H. apply opening_at_inv in H as [H _]. discriminate H.
      * intros H j Hj.
        destruct (Z.eq_dec j (Z.of_nat a + 1)) as [-> | Hne].
        -- now apply (no_open_transition self _ ts).
        -- apply (proj1 (IH (S a)) H). lia.
    + intros H.
      rewrite (get_daily_transitions_none self _ (H (Z.of_nat a + 1) ltac:(lia))).
      cbn. apply IH. intros j Hj. apply H. lia.
Qed.

Lemma find_next_opening_unfold (self : t) (date : Date) (hour : Z) :
  find_next_opening self date hour =
  rbind (get_daily_transitions self date)
    (fun transitions =>
       match List.find (fun trans => is_open_type (t_type trans)
                                     && (hour <? t_time trans)) transitions with
       | Some trans => opening_at date trans
       | None => search_next_days self date (offsets_from 0 30)
       end).
Proof. reflexivity. Qed.

(** X6.  An opening returned by [find_next_opening] is the start of a
    period of the returned day, on the clock, with that period's target,
    and the pool is open at that time.  It is either later today, and
    then the earliest start after the current hour, or [k] days ahead
    with [1 <= k <= 30], and then today has no start after the current
    hour, the days in between have no periods, and the start is the
    earliest of its day. *)
Theorem find_next_opening_earliest (self : t) (date : Date) (hour : Z)
        (d' : Date) (h' : Z) (temp : option Q) :
  find_next_opening self date hour = Ok (Some (d', h', temp)) ->
  (0 <= h' <= 23 /\
   exists periods p,
     get_periods self d' = Ok periods /\ In p periods /\
     p_from p = h' /\ temp = Some (p_target_temp p) /\
     is_open self d' h' = Ok true /\
     forall q, In q periods -> (d' = date -> hour < p_from q) -> h' <= p_from q) /\
  ((d' = date /\ hour < h') \/
   (exists k,
      1 <= k <= 30 /\ d' = add_days date k /\
      (exists today, get_periods self date = Ok today /\
                     forall q, In q today -> p_from q <= hour) /\
      (forall j, 1 <= j < k -> get_periods self (add_days date j) = Ok []) /\
      (forall periods q, get_periods self d' = Ok periods -> In q periods ->
                         h' <= p_from q))).
Proof.
  rewrite find_next_opening_unfold.
  destruct (get_daily_transitions self date) as [ts |] eqn:Et; cbn [rbind];
    [| discriminate].
  destruct (List.find _ ts) as [tr |] eqn:E.
  - intros H. apply opening_at_inv in H as [[= -> -> ->] Hb].
    destruct (first_open_transition self date ts _ tr Et (open_after_is_open hour) E)
      as (periods & p & Hp & Hin & Htime & Htemp & Ftr & Hleast).
    apply andb_true_iff in Ftr as [_ Hlt]. apply Z.ltb_lt in Hlt.
    split; [split; [exact Hb |] | left; split; [reflexivity | exact Hlt]].
    exists periods, p. split; [exact Hp |]. split; [exact Hin |].
    split; [now symmetry |]. split; [exact Htemp |].
    split.
    { apply (is_open_contains self date _ periods p Hp Hin).
      rewrite Htime. apply period_contains_from. }
    intros q Hq Hafter. specialize (Hafter eq_refl).
    pose proof Et as Et'. apply get_daily_transitions_inv in Et' as (periods' & Hp' & ->).
    rewrite Hp in Hp'. injection Hp' as <-.
    destruct (transitions_of_period periods None q Hq) as (o & _ & Ho & _ & Hty & Hto & _).
    apply (Permutation_in _ (Permutation_sym (sort_by_key_perm t_time _))) in Ho.
    rewrite <- Hto. apply Hleast; [exact Ho |].
    rewrite Hty. cbn. apply Z.ltb_lt. lia.
  - intros H.
    apply search_next_days_some in H
      as (k & ts' & tr & Hk & -> & Ht' & Hf & -> & -> & Hb & Hbefore).
    destruct (first_open_transition self _ ts' _ tr Ht' is_open_type_open Hf)
      as (periods & p & Hp & Hin & Htime & Htemp & _ & Hleast).
    assert (Hmin : forall q, In q periods -> t_time tr <= p_from q).
    { intros q Hq.
      pose proof Ht' as Et'. apply get_daily_transitions_inv in Et' as (periods' & Hp' & ->).
      rewrite Hp in Hp'. injection Hp' as <-.
      destruct (transitions_of_period periods None q Hq) as (o & _ & Ho & _ & Hty & Hto & _).
      apply (Permutation_in _ (Permutation_sym (sort_by_key_perm t_time _))) in Ho.
      rewrite <- Hto. apply Hleast; [exact Ho |]. now rewrite Hty. }
    split.
    + split; [exact Hb |].
      exists periods, p. split; [exact Hp |]. split; [exact Hin |].
      split; [now symmetry |]. split; [exact Htemp |].
      split.
      { apply (is_open_contains self _ _ periods p Hp Hin).
        rewrite Htime. apply period_contains_from. }
      intros q Hq _. now apply Hmin.
    + right. exists k. split; [lia |]. split; [reflexivity |].
      split.
      { pose proof Et as Et'.
        apply get_daily_transitions_inv in Et' as (today & Htoday & ->).
        exists today. split; [exact Htoday |].
        intros q Hq.
        destruct (transitions_of_period today None q Hq) as (o & _ & Ho & _ & Hty & Hto & _).
        apply (Permutation_in _ (Permutation_sym (sort_by_key_perm t_time _))) in Ho.
        pose proof (find_none _ _ E o Ho) as N. cbv beta in N.
        rewrite Hty in N. cbn in N. apply Z.ltb_ge in N. lia. }
      split; [intros j Hj; apply Hbefore; lia |].
      intros periods' q Hp' Hq. rewrite Hp in Hp'. injection Hp' as <-.
      now apply Hmin.
Qed.

Lemma find_next_opening_earliest_witness :
  find_next_opening (example_scheduler true) (mkDate 2024 12 24) 21
  = Ok (Some (mkDate 2024 12 26, 10, Some 28%Q)) /\
  get_periods (example_scheduler true) (mkDate 2024 12 25) = Ok [] /\
  is_open (example_scheduler true) (mkDate 2024 12 26) 10 = Ok true.
Proof.
  assert (H : find_next_opening (example_scheduler true) (mkDate 2024 12 24) 21
              = Ok (Some (mkDate 2024 12 26, 10, Some 28%Q))) by (vm_compute; reflexivity).
  split; [exact H |]. split; [reflexivity |].
  destruct (find_next_opening_earliest _ _ _ _ _ _ H)
    as [(_ & periods & p & _ & _ & _ & _ & Hopen & _) _].
  exact Hopen.
Defined.

(** X7.  [find_next_opening] returns [(None, None)] exactly when no
    period of today starts after the current hour and none of the next
    30 days has a period. *)
Theorem find_next_opening_none (self : t) (date : Date) (hour : Z) :
  find_next_opening self date hour = Ok None <->
  (exists today, get_periods self date = Ok today /\
                 forall q, In q today -> p_from q <= hour) /\
  (forall j, 1 <= j <= 30 -> get_periods self (add_days date j) = Ok []).
Proof.
  rewrite find_next_opening_unfold. split.
  - destruct (get_daily_transitions self date) as [ts |] eqn:Et; cbn [rbind];
      [| discriminate].
    destruct (List.find _ ts) as [tr |] eqn:E.
    + intros H. apply opening_at_inv in H as [H _]. discriminate H.
    + intros H. split.
      * apply get_daily_transitions_inv in Et as (today & Htoday & ->).
        exists today. split; [exact Htoday |].
        intros q Hq.
        destruct (transitions_of_period today None q Hq) as (o & _ & Ho & _ & Hty & Hto & _).
        apply (Permutation_in _ (Permutation_sym (sort_by_key_perm t_time _))) in Ho.
        pose proof (find_none _ _ E o Ho) as N. cbv beta in N.
        rewrite Hty in N. cbn in N. apply Z.ltb_ge in N. lia.
      * intros j Hj. apply (proj1 (search_next_days_none self date 30 0) H). lia.
  - intros [(today & Htoday & Hlate) Hnext].
    unfold get_daily_transitions. rsimpl. rewrite Htoday. cbn [rbind].
    destruct (List.find _ (sort_by_key t_time (transitions_of today None)))
      as [tr |] eqn:E.
    + exfalso. apply find_some in E as [Hin Ftr].
      apply (Permutation_in _ (sort_by_key_perm t_time _)) in Hin.
      apply andb_true_iff in Ftr as [Hty Hlt]. apply Z.ltb_lt in Hlt.
      destruct (transitions_of_open _ _ _ Hin (is_open_type_open _ Hty))
        as (p & Hp & Htime & _).
      specialize (Hlate p Hp). lia.
    + apply search_next_days_none. intros j Hj. apply Hnext. lia.
Qed.
(** *** Resolution never fails on a consistent schedule *)

Lemma week_lookup_some (ws : WeekSchedule) (date : Date) (name : string) :
  week_lookup ws date = Some name ->
  exists dow, ws_days ws !! dow = Some (Some name).
Proof.
  unfold week_lookup.
  destruct (nth_error weekday_short (Z.to_nat (weekday date))) as [dow |];
    [| discriminate].
  destruct (ws_days ws !! dow) as [o |] eqn:E; cbn; [| discriminate].
  intros ->. eauto.
Qed.

Lemma truthy_str_some (o : option string) :
  truthy_str o = true -> exists name, o = Some name /\ name <> EmptyString.
Proof.
  destruct o as [name |]; cbn; [| discriminate].
  intros H. exists name. split; [reflexivity |].
  intros ->. discriminate H.
Qed.

Lemma check_date_ranges_some (self : t) (date : Date) (l : list DateRange)
      (name : string) :
  check_date_ranges self date l = Some name ->
  exists id ws dow,
    week_schedules self !! id = Some ws /\
    ws_days ws !! dow = Some (Some name) /\ name <> EmptyString.
Proof.
  induction l as [| r l IH]; cbn; [discriminate |].
  destruct (_date_in_range date r); [| exact IH].
  destruct (week_schedules self !! week_schedule_id r) as [ws |] eqn:Ews; [| exact IH].
  destruct (truthy_str (week_lookup ws date)) eqn:Et; [| exact IH].
  intros H. apply truthy_str_some in Et as (name' & Hn & Hne).
  rewrite Hn in H. injection H as ->.
  apply week_lookup_some in Hn as [dow Hd]. eauto 6.
Qed.

Lemma lookup_first_schedule (self : t) (name : string) (s : DaySchedule)
      (rest : list (string * DaySchedule)) :
  schedules self = (name, s) :: rest -> lookup_schedule self name = Some s.
Proof.
  intros H. unfold lookup_schedule. rewrite H. cbn.
  now rewrite String.eqb_refl.
Qed.

Lemma well_formed_schedule_name (self : t) (date : Date) :
  well_formed self ->
  exists name schedule,
    get_schedule_for_date self date = Ok (Some name) /\
    lookup_schedule self name = Some schedule.
Proof.
  intros (Hne & Hexc & Hweek). unfold get_schedule_for_date.
  destruct (_check_exception_days self date) as [exc |] eqn:Ee.
  { apply find_some in Ee as [Hin _].
    destruct (Hexc exc Hin) as (name & Hn & [s Hs]).
    exists name, s. rewrite Hn. auto. }
  destruct (check_date_ranges self date (date_ranges self)) as [name |] eqn:Er.
  { apply check_date_ranges_some in Er as (id & ws & dow & Hws & Hd & Hnn).
    destruct (Hweek id ws dow name Hws Hd Hnn) as [s Hs]. eauto. }
  destruct (base_week_schedule_id (template self)) as [base |]; cbn.
  - destruct (negb (base =? 0)); cbn.
    + destruct (week_schedules self !! base) as [ws |] eqn:Ews.
      * destruct (truthy_str (week_lookup ws date)) eqn:Et.
        -- apply truthy_str_some in Et as (name & Hn & Hnn). rewrite Hn.
           apply week_lookup_some in Hn as [dow Hd].
           destruct (Hweek base ws dow name Ews Hd Hnn) as [s Hs]. eauto.
        -- destruct (schedules self) as [| [name s] rest] eqn:Es; [contradiction |].
           exists name, s. split; [reflexivity |].
           now apply (lookup_first_schedule self name s rest).
      * destruct (schedules self) as [| [name s] rest] eqn:Es; [contradiction |].
        exists name, s. split; [reflexivity |].
        now apply (lookup_first_schedule self name s rest).
    + destruct (schedules self) as [| [name s] rest] eqn:Es; [contradiction |].
      exists name, s. split; [reflexivity |].
      now apply (lookup_first_schedule self name s rest).
  - destruct (schedules self) as [| [name s] rest] eqn:Es; [contradiction |].
    exists name, s. split; [reflexivity |].
    now apply (lookup_first_schedule self name s rest).
Qed.

(** X8.  When every exception day and every week pattern names an
    existing day schedule and there is at least one day schedule, every
    date resolves: [get_schedule_for_date] and [get_periods] raise no
    [ValueError], and neither do the functions built on them. *)
Theorem well_formed_schedule_resolves (self : t) (date : Date) :
  well_formed self ->
  exists name schedule,
    get_schedule_for_date self date = Ok (Some name) /\
    lookup_schedule self name = Some schedule /\
    get_periods self date = Ok (ds_periods schedule) /\
    (exists ts, get_daily_transitions self date = Ok ts) /\
    (forall hour, exists b, is_open self date hour = Ok b) /\
    (forall hour, exists o, get_current_period self date hour = Ok o).
Proof.
  intros H. destruct (well_formed_schedule_name self date H) as (name & s & Hn & Hs).
  assert (Hp : get_periods self date = Ok (ds_periods s)).
  { unfold get_periods. rsimpl. rewrite Hn. cbn. now rewrite Hs. }
  exists name, s. split; [exact Hn |]. split; [exact Hs |]. split; [exact Hp |].
  split; [| split].
  - unfold get_daily_transitions. rsimpl. rewrite Hp. cbn. eauto.
  - intros hour. unfold is_open, get_current_temperature. rsimpl. rewrite Hp. cbn. eauto.
  - intros hour. unfold get_current_period. rsimpl. rewrite Hp. cbn. eauto.
Qed.

Lemma example_scheduler_well_formed : well_formed (example_scheduler true).
Proof.
  split; [discriminate |]. split.
  - intros exc [<- | []]. exists "Closed"%string. split; [reflexivity |].
    eexists. reflexivity.
  - intros id ws dow name Hws Hd Hnn.
    change (week_schedules (example_scheduler true))
      with ({[ 2 := example_week ]} : gmap Z WeekSchedule) in Hws.
    apply lookup_singleton_Some in Hws as [_ <-].
    unfold example_week in Hd. cbn [ws_days] in Hd.
    apply elem_of_list_to_map_2 in Hd.
    apply list_elem_of_In, in_map_iff in Hd as (d & [= _ <-] & _).
    eexists. reflexivity.
Qed.

Lemma well_formed_schedule_resolves_witness :
  well_formed (example_scheduler true) /\
  get_periods (example_scheduler true) (mkDate 2024 12 25) = Ok [].
Proof.
  split; [exact example_scheduler_well_formed |].
  destruct (well_formed_schedule_resolves (example_scheduler true) (mkDate 2024 12 25)
              example_scheduler_well_formed)
    as (name & s & _ & _ & Hp & _).
  reflexivity.
Defined.

End SchedulerInvariants.
